(** * Lineage classifier of the varpipe test data: a shallow embedding

    Source: data/genomics/tuberculosis/genome/varpipe/scripts/lineage_parser.py

    The script reads a table of lineage markers and a table of annotated
    variants, collects lineage and sub-lineage evidence, resolves it to one
    verdict and writes a three-column report and a narrative log.  The two
    tables are taken here as the rows [csv.DictReader] delivers, restricted
    to the columns the script reads, every row holding a string in each of
    them.  A table that lacks one of these columns, and a row shorter than
    the header, are outside the model: for the short row [csv.DictReader]
    gives [None] in place of a string, and the evidence loop raises
    [TypeError] when it takes [len] of it.  The two reports are the lists
    the script builds
    before it writes them out.  Labels, positions and alleles are ASCII
    strings, so that [String.length] is Python's [len]. *)

From Stdlib Require Import Ascii.
From stdpp Require Import gmap strings list fin_maps fin_sets.

(** ** Python values and exceptions *)

(** The exceptions the script's subscripts and [max] can raise on such
    tables. *)
Inductive exn : Type :=
| IndexError
| KeyError
| ValueError.

Inductive result (A : Type) : Type :=
| Ok (a : A)
| Raise (e : exn).
Arguments Ok {A} a.
Arguments Raise {A} e.

#[global] Instance result_ret : MRet result := @Ok.
#[global] Instance result_bind : MBind result := λ A B f r,
  match r with
  | Ok a => f a
  | Raise e => Raise e
  end.

(** [s.split(sep)] for a one-character separator: always at least one piece. *)
Fixpoint str_split (sep : Ascii.ascii) (s : string) : list string :=
  match s with
  | EmptyString => [EmptyString]
  | String c s' =>
      if Ascii.eqb c sep then EmptyString :: str_split sep s'
      else match str_split sep s' with
           | [] => [String c EmptyString]
           | piece :: pieces => String c piece :: pieces
           end
  end.

(** [l[i]] on a list, for a non-negative index. *)
Definition index {A} (l : list A) (i : nat) : result A :=
  match l !! i with
  | Some x => Ok x
  | None => Raise IndexError
  end.

(** [d[k]] on a dict. *)
Definition getitem {V} (d : gmap string V) (k : string) : result V :=
  match d !! k with
  | Some v => Ok v
  | None => Raise KeyError
  end.

(** [max(l, key=len)]: the first of the longest strings. *)
Definition longer (best y : string) : string :=
  if (String.length best <? String.length y)%nat then y else best.

Definition max_key_len (l : list string) : result string :=
  match l with
  | [] => Raise ValueError
  | x :: xs => Ok (foldl longer x xs)
  end.

(** Truth value of a string and of a list. *)
Definition str_true (s : string) : bool :=
  match s with
  | EmptyString => false
  | String _ _ => true
  end.

Definition list_true {A} (l : list A) : bool :=
  match l with
  | [] => false
  | _ :: _ => true
  end.

(** ** Module-level tables *)

Definition tribe_map : gmap string string :=
  list_to_map
    [ ("1", "Indo-Oceanic");
      ("2", "East-Asian");
      ("3", "East-African-Indian");
      ("4", "Euro-American");
      ("5", "West-Africa 1");
      ("6", "West-Africa 2");
      ("7", "Ethiopian") ].

(** A dict iterates in insertion order, and [_report_animals] depends on it. *)
Definition animal_map : list (string * (string * string)) :=
  [ ("BCG", ("Bovis-BCG", "M. bovis-BCG"));
    ("BOV", ("Bovis", "M. bovis"));
    ("ORYX", ("Oryx", "M. orygis"));
    ("CAP", ("Caprae", "M. caprae")) ].

Definition snp_tags_items : list (string * string) :=
  [ ("931123", "linfour");
    ("1759252", "hrv37");
    ("2831482", "CAP");
    ("2289073", "BOV");
    ("8624", "BCG");
    ("2726378", "ORYX") ].

Definition snp_tags : gmap string string := list_to_map snp_tags_items.

Definition tag_snps : gmap string string :=
  list_to_map ((λ kv : string * string, (kv.2, kv.1)) <$> snp_tags_items).

(** ** Input rows *)

(** A row of the marker table: columns [Position], [##Lineage] and [Alt]. *)
Record marker : Type := {
  Position : string;
  Lineage : string;
  Alt : string
}.

(** A row of the variant table: columns [POS] and [ALT]. *)
Record snp : Type := {
  POS : string;
  ALT : string
}.

(** [{marker["Position"]: marker for marker in marker_parser}]: a later row
    with the same position replaces an earlier one. *)
Definition position_map_of (markers : list marker) : gmap string marker :=
  foldl (λ m mk, <[Position mk := mk]> m) ∅ markers.

(** [{snp["POS"] for snp in snp_data}] *)
Definition snps_of (snp_data : list snp) : gset string :=
  list_to_set (POS <$> snp_data).

(** [{snp_tags[pos] for pos in snps if pos in snp_tags}], where [order] is
    the order in which the set [snps] is iterated.  Python fixes no order
    for a set of strings (it follows the hash seed of the process). *)
Definition tags_from (order : list string) : gset string :=
  list_to_set (omap (λ pos, snp_tags !! pos) order).

(** ** The two reports and the monad of the run *)

Record reports : Type := {
  tsv_report : list (list string);
  text_report : list string
}.

(** A computation reads and extends the reports, or raises. *)
Definition M (A : Type) : Type := reports → result (A * reports).

#[global] Instance M_ret : MRet M := λ A a st, Ok (a, st).
#[global] Instance M_bind : MBind M := λ A B f m st,
  match m st with
  | Ok (a, st') => f a st'
  | Raise e => Raise e
  end.

Definition lift {A} (r : result A) : M A := λ st,
  match r with
  | Ok a => Ok (a, st)
  | Raise e => Raise e
  end.

Definition text_append (line : string) : M unit := λ st,
  Ok (tt, {| tsv_report := tsv_report st;
             text_report := text_report st ++ [line] |}).

Definition tsv_append (row : list string) : M unit := λ st,
  Ok (tt, {| tsv_report := tsv_report st ++ [row];
             text_report := text_report st |}).

(** ** parse_lineage and its nested functions *)

Section parse_lineage.
(** Variables of [parse_lineage] that its nested functions read and that
    are assigned once, before any of them is called. *)
Context (position_map : gmap string marker) (snp_data : list snp).
Context (sample_id : string) (tags : gset string).

(** [any(tag in tags for tag in animal_map)] *)
Definition animals : bool :=
  existsb (λ entry, bool_decide (entry.1 ∈ tags)) animal_map.

(** The loop of [_get_lineage_detail] over the remaining rows. *)
Fixpoint _get_lineage_detail_from (rows : list snp)
    (sublin : string) (prevlin prevsub : list string)
    : M (string * list string * list string) :=
  match rows with
  | [] => mret (sublin, prevlin, prevsub)
  | row :: rows' =>
      match position_map !! POS row with
      | Some mk =>
          let lineage := Lineage mk in
          let alt := Alt mk in
          if bool_decide (alt = ALT row) then
            if (1 <? String.length lineage)%nat then
              let prevsub := prevsub ++ [lineage] in
              sublin ← lift (max_key_len prevsub);
              text_append
                ("SNP " +:+ POS row +:+ " suggests sub-lineage: " +:+ lineage);;
              _get_lineage_detail_from rows' sublin prevlin prevsub
            else
              let prevlin := prevlin ++ [lineage] in
              text_append
                ("SNP " +:+ POS row +:+ " suggests lineage: " +:+ lineage);;
              _get_lineage_detail_from rows' sublin prevlin prevsub
          else _get_lineage_detail_from rows' sublin prevlin prevsub
      | None => _get_lineage_detail_from rows' sublin prevlin prevsub
      end
  end.

Definition _get_lineage_detail : M (string * list string * list string) :=
  _get_lineage_detail_from snp_data "" [] [].

(** The test of the loop of [_check_discordance]; [or] evaluates its
    right operand only when the left one is false. *)
Definition discordant_pair (split_lin split_first : list string) : result bool :=
  a0 ← index split_lin 0;
  b0 ← index split_first 0;
  if negb (String.eqb a0 b0) then Ok true
  else
    a1 ← index split_lin 1;
    b1 ← index split_first 1;
    Ok (negb (String.eqb a1 b1)).

Fixpoint _check_discordance_loop (split_first : list string)
    (prevsub : list string) : result bool :=
  match prevsub with
  | [] => Ok false
  | sub :: prevsub' =>
      let split_lin := str_split "."%char sub in
      d ← discordant_pair split_lin split_first;
      if d : bool then Ok true
      else _check_discordance_loop split_first prevsub'
  end.

Definition _check_discordance (sublin : string) (prevsub : list string)
    : result (bool * list string) :=
  let split_first := str_split "."%char sublin in
  discordance ← _check_discordance_loop split_first prevsub;
  Ok (discordance, split_first).

Fixpoint _check_sublin_discordance (prevlin split_first : list string)
    (prevsub : list string) : result bool :=
  match prevsub with
  | [] => Ok false
  | sub :: prevsub' =>
      let split_lin := str_split "."%char sub in
      a ← index split_lin 0;
      p ← index prevlin 0;
      if negb (String.eqb a p) then Ok true
      else
        a' ← index split_lin 0;
        b ← index split_first 0;
        if negb (String.eqb a' b) then Ok true
        else _check_sublin_discordance prevlin split_first prevsub'
  end.

(** [any(prevlin[0] != lin for lin in prevlin)] *)
Fixpoint any_differs (prevlin lins : list string) : result bool :=
  match lins with
  | [] => Ok false
  | lin :: lins' =>
      p ← index prevlin 0;
      if negb (String.eqb p lin) then Ok true
      else any_differs prevlin lins'
  end.

Definition _check_multiple_discordance (prevlin : list string) : result bool :=
  any_differs prevlin prevlin.

Definition _report_mixed_lineage : M unit :=
  text_append "no precise lineage inferred";;
  tsv_append [sample_id; "mixed lineage(s)"; "mixed lineage(s)"].

Definition _report_tribe (discordance : bool) (split_first : list string)
    (tribe : string) : M unit :=
  if discordance || animals then _report_mixed_lineage
  else
    name ← lift (getitem tribe_map tribe);
    text_append ("Lineage: " +:+ tribe +:+ " " +:+ name);;
    code ← lift (index split_first 0);
    name' ← lift (getitem tribe_map tribe);
    tsv_append [sample_id; code; name'].

Definition _report_linfour : M unit :=
  if animals then _report_mixed_lineage
  else
    text_append "Absence of SNP 931123 suggests lineage 4";;
    (if negb (bool_decide ("hrv37" ∈ tags))
     then text_append "Absence of SNP 1759252 suggests sublineage 4.9"
     else mret tt);;
    text_append "Lineage: 4 Euro-American";;
    tsv_append [sample_id; "4"; "Euro-American"].

(** The [for ... else] of [_report_animals] over the remaining entries. *)
Fixpoint _report_animals_from (entries : list (string * (string * string)))
    : M unit :=
  match entries with
  | [] =>
      text_append "No Informative SNPs detected";;
      tsv_append [sample_id; "No Informative SNPs detected";
                  "No Informative SNPs detected"]
  | (tag, (short_species, species)) :: entries' =>
      if bool_decide (tag ∈ tags) then
        text_append ("Lineage: " +:+ short_species);;
        tsv_append [sample_id; short_species; species]
      else _report_animals_from entries'
  end.

Definition _report_animals : M unit := _report_animals_from animal_map.

Definition _report_prevlin (prevlin : list string) : M unit :=
  p ← lift (index prevlin 0);
  name ← lift (getitem tribe_map p);
  text_append ("Lineage: " +:+ p +:+ " " +:+ name);;
  p' ← lift (index prevlin 0);
  p'' ← lift (index prevlin 0);
  name' ← lift (getitem tribe_map p'');
  tsv_append [sample_id; p'; name'].

Definition _report_multiple_prevlin (discordance : bool)
    (prevlin : list string) : M unit :=
  if discordance then
    text_append "no concordance between predicted lineage and sublineage(s)";;
    tsv_append [sample_id; "mixed lineage(s)"; "mixed lineage(s)"]
  else _report_prevlin prevlin.

(** The loop of [parse_lineage] that announces the animal tags. *)
Fixpoint animal_notes (entries : list (string * (string * string)))
    : M unit :=
  match entries with
  | [] => mret tt
  | (tag, (short_species, species)) :: entries' =>
      (if bool_decide (tag ∈ tags) then
         pos ← lift (getitem tag_snps tag);
         text_append ("SNP " +:+ pos +:+ " suggests " +:+ species)
       else mret tt);;
      animal_notes entries'
  end.

(** The dispatch of [parse_lineage] on the collected evidence: from the
    assignment of [split_first] to the last reporting branch. *)
Definition resolve (sublin : string) (prevlin prevsub : list string)
    : M unit :=
  let split_first :=
    if list_true prevsub && str_true sublin then str_split "."%char sublin
    else ["NA"] in
  if negb (list_true prevlin) then
    '(discordance, split_first) ← lift (_check_discordance sublin prevsub);
    if (1 <? length split_first)%nat then
      tribe ← lift (index split_first 0);
      _report_tribe discordance split_first tribe
    else if negb (bool_decide ("linfour" ∈ tags)) then _report_linfour
    else _report_animals
  else if (length prevlin =? 1)%nat then
    if str_true sublin then
      discordance ← lift (_check_sublin_discordance prevlin split_first prevsub);
      tribe ← lift (index prevlin 0);
      _report_tribe discordance split_first tribe
    else _report_prevlin prevlin
  else
    discordance ← lift (_check_multiple_discordance prevlin);
    _report_multiple_prevlin discordance prevlin.

(** The body of [parse_lineage] once the tables are loaded and [tags] is
    known, up to the writing of the two files. *)
Definition run : M unit :=
  animal_notes animal_map;;
  '(sublin, prevlin, prevsub) ← _get_lineage_detail;
  resolve sublin prevlin prevsub.

End parse_lineage.

Definition initial_reports : reports :=
  {| tsv_report := [["Sample ID"; "Lineage"; "Lineage Name"]];
     text_report := [] |}.

(** [parse_lineage] on loaded tables, with [order] the iteration order of
    the set of observed positions.  The result is the pair of reports the
    script then writes, or the exception that ends the run before any file
    is written. *)
Definition parse_lineage_in (order : list string)
    (markers : list marker) (snp_data : list snp) (sample_id : string)
    : result reports :=
  let position_map := position_map_of markers in
  let tags := tags_from order in
  match run position_map snp_data sample_id tags initial_reports with
  | Ok (_, st) => Ok st
  | Raise e => Raise e
  end.

Definition parse_lineage (markers : list marker) (snp_data : list snp)
    (sample_id : string) : result reports :=
  parse_lineage_in (elements (snps_of snp_data)) markers snp_data sample_id.

(** ** Vocabulary of the statements

    Small tables to run the script on, what a row brings as evidence, and
    the reports after a verdict. *)

(** A marker row and a variant row, written short. *)
Definition mk (pos lin alt : string) : marker :=
  {| Position := pos; Lineage := lin; Alt := alt |}.

Definition obs (pos alt : string) : snp := {| POS := pos; ALT := alt |}.

(** The label a row brings as evidence: its position is a key of the marker
    mapping and its allele is the marker's. *)
Definition matched (position_map : gmap string marker) (row : snp)
    : option string :=
  match position_map !! POS row with
  | Some mk => if bool_decide (Alt mk = ALT row) then Some (Lineage mk) else None
  | None => None
  end.

(** The narrative line the loop writes for a row that brings [lineage]. *)
Definition detail_line (row : snp) (lineage : string) : string :=
  if (1 <? String.length lineage)%nat
  then "SNP " +:+ POS row +:+ " suggests sub-lineage: " +:+ lineage
  else "SNP " +:+ POS row +:+ " suggests lineage: " +:+ lineage.

(** The labels of the matching rows, and their lines, in row order. *)
Definition labels (position_map : gmap string marker) (rows : list snp)
    : list string :=
  omap (matched position_map) rows.

Definition detail_lines (position_map : gmap string marker) (rows : list snp)
    : list string :=
  omap (λ row, detail_line row <$> matched position_map row) rows.

(** The value [sublin] holds once [prevsub] has been collected. *)
Definition deepest (prevsub : list string) : string :=
  match prevsub with
  | [] => ""
  | x :: xs => foldl longer x xs
  end.

(** The reports with more narrative lines, and with one more row too. *)
Definition add_text (st : reports) (lines : list string) : reports :=
  {| tsv_report := tsv_report st; text_report := text_report st ++ lines |}.

Definition add_verdict (st : reports) (row : list string)
    (lines : list string) : reports :=
  {| tsv_report := tsv_report st ++ [row];
     text_report := text_report st ++ lines |}.

(** The top-level component of a label: [label.split(".")[0]]. *)
Definition top (label : string) : string := hd "" (str_split "." label).

(** The indeterminate verdict. *)
Definition mixed_row (sample_id : string) : list string :=
  [sample_id; "mixed lineage(s)"; "mixed lineage(s)"].

(** The tags of a run of [parse_lineage]. *)
Definition tags_of (snp_data : list snp) : gset string :=
  tags_from (elements (snps_of snp_data)).

(** The labels by kind, as [_get_lineage_detail] returns them. *)
Definition lins (pm : gmap string marker) (rows : list snp) : list string :=
  filter (λ l, String.length l ≤ 1) (labels pm rows).

Definition subs (pm : gmap string marker) (rows : list snp) : list string :=
  filter (λ l, 1 < String.length l) (labels pm rows).

(** A lineage label the display-name table knows. *)
Definition known_lineage (l : string) : bool :=
  bool_decide (is_Some (tribe_map !! l)).

(** A sublineage label of at least two components whose first one the
    display-name table knows. *)
Definition known_sublineage (sub : string) : bool :=
  match str_split "." sub with
  | a :: _ :: _ => known_lineage a
  | _ => false
  end.

(** ** Outcomes of a run *)

(** What a run concludes: a lineage of the display-name table, one of the
    two indeterminate reports, the inference of lineage 4 from absence (with
    or without the note on sublineage 4.9), an animal strain, or nothing. *)
Inductive verdict : Type :=
| Tribe (code name : string)
| MixedImprecise
| MixedNoConcordance
| LineageFour (hrv37 : bool)
| Animal (short_species species : string)
| NoInformative.

(** The row a verdict adds to the report. *)
Definition verdict_row (sample_id : string) (v : verdict) : list string :=
  match v with
  | Tribe code name => [sample_id; code; name]
  | MixedImprecise | MixedNoConcordance => mixed_row sample_id
  | LineageFour _ => [sample_id; "4"; "Euro-American"]
  | Animal short_species species => [sample_id; short_species; species]
  | NoInformative =>
      [sample_id; "No Informative SNPs detected"; "No Informative SNPs detected"]
  end.

(** The lines a verdict adds to the narrative log. *)
Definition verdict_lines (v : verdict) : list string :=
  match v with
  | Tribe code name => ["Lineage: " +:+ code +:+ " " +:+ name]
  | MixedImprecise => ["no precise lineage inferred"]
  | MixedNoConcordance =>
      ["no concordance between predicted lineage and sublineage(s)"]
  | LineageFour hrv37 =>
      ["Absence of SNP 931123 suggests lineage 4"]
      ++ (if hrv37 then []
          else ["Absence of SNP 1759252 suggests sublineage 4.9"])
      ++ ["Lineage: 4 Euro-American"]
  | Animal short_species _ => ["Lineage: " +:+ short_species]
  | NoInformative => ["No Informative SNPs detected"]
  end.

(** A lineage verdict pairs a key of [tribe_map] with its value, an animal
    verdict is an entry of [animal_map]. *)
Definition verdict_valid (v : verdict) : Prop :=
  match v with
  | Tribe code name => tribe_map !! code = Some name
  | Animal short_species species =>
      ∃ tag, (tag, (short_species, species)) ∈ animal_map
  | _ => True
  end.

(** The second component of a label, [label.split(".")[1]], when there is
    one. *)
Definition second (label : string) : string :=
  default "" (str_split "." label !! 1).

(** The note of the animal-tag loop for one position, if it is observed. *)
Definition animal_note (snp_data : list snp) (pos species : string)
    : list string :=
  if bool_decide (pos ∈ POS <$> snp_data)
  then ["SNP " +:+ pos +:+ " suggests " +:+ species]
  else [].

(** A variant row the run can react to: it brings evidence, or its position
    is one of the special positions. *)
Definition relevant (pm : gmap string marker) (row : snp) : Prop :=
  is_Some (matched pm row) ∨ is_Some (snp_tags !! POS row).

#[global] Instance relevant_dec pm row : Decision (relevant pm row).
Proof. unfold relevant. apply _. Defined.

(** The note lines of the animal-tag loop, in the order of [animal_map]. *)
Definition animal_note_lines (snp_data : list snp) : list string :=
  animal_note snp_data "8624" "M. bovis-BCG"
  ++ animal_note snp_data "2289073" "M. bovis"
  ++ animal_note snp_data "2726378" "M. orygis"
  ++ animal_note snp_data "2831482" "M. caprae".

(** The animal verdict by the observed positions, in the order of
    [animal_map], or the verdict of no information. *)
Definition first_animal (snp_data : list snp) : verdict :=
  if bool_decide ("8624" ∈ POS <$> snp_data)
  then Animal "Bovis-BCG" "M. bovis-BCG"
  else if bool_decide ("2289073" ∈ POS <$> snp_data)
  then Animal "Bovis" "M. bovis"
  else if bool_decide ("2726378" ∈ POS <$> snp_data)
  then Animal "Oryx" "M. orygis"
  else if bool_decide ("2831482" ∈ POS <$> snp_data)
  then Animal "Caprae" "M. caprae"
  else NoInformative.

(** * The report rebuilt from the narrative log

    Source: data/genomics/tuberculosis/genome/kb/varpipe/scripts/create_lineage_report.py

    The script reads the lines of a [Lineage.txt] log, keeps the lineage of
    the last line that states one, and writes a header and one row.  The
    file is taken as the list [readlines] returns; text is ASCII. *)

(** [c.isspace()] on an ASCII character. *)
Definition is_space (c : Ascii.ascii) : bool :=
  let n := Ascii.nat_of_ascii c in
  ((9 <=? n) && (n <=? 13) || (28 <=? n) && (n <=? 32))%nat.

Fixpoint lstrip (s : string) : string :=
  match s with
  | EmptyString => EmptyString
  | String c s' => if is_space c then lstrip s' else s
  end.

Fixpoint rstrip (s : string) : string :=
  match s with
  | EmptyString => EmptyString
  | String c s' =>
      match rstrip s' with
      | EmptyString => if is_space c then EmptyString else String c EmptyString
      | r => String c r
      end
  end.

(** [s.strip()] *)
Definition strip (s : string) : string := rstrip (lstrip s).

(** [pat in s] *)
Fixpoint contains (pat s : string) : bool :=
  String.prefix pat s
  || match s with
     | EmptyString => false
     | String _ s' => contains pat s'
     end.

(** [s.split()]: the words between runs of whitespace. *)
Fixpoint split_ws (s : string) : list string :=
  match s with
  | EmptyString => []
  | String c s' =>
      if is_space c then split_ws s'
      else match s' with
           | EmptyString => [String c EmptyString]
           | String d _ =>
               if is_space d then String c EmptyString :: split_ws s'
               else match split_ws s' with
                    | w :: ws => String c w :: ws
                    | [] => [String c EmptyString]
                    end
           end
  end.

(** The first word of a string that starts with it, and what follows. *)
Fixpoint first_word (s : string) : string * string :=
  match s with
  | EmptyString => (EmptyString, EmptyString)
  | String c s' =>
      if is_space c then (EmptyString, s)
      else let '(w, rest) := first_word s' in (String c w, rest)
  end.

(** [s.split(None, 1)]: the first word, then the rest from its first
    character that is no whitespace, if any. *)
Definition split_ws_once (s : string) : list string :=
  match lstrip s with
  | EmptyString => []
  | s1 =>
      let '(w, rest) := first_word s1 in
      match lstrip rest with
      | EmptyString => [w]
      | r => [w; r]
      end
  end.

(** [os.path.basename(p)]: what follows the last slash. *)
Definition basename (p : string) : string :=
  default "" (last (str_split "/" p)).

Module CreateLineageReport.

(** The exceptions the loop can raise. *)
Inductive exn : Type :=
| IndexError
| UnboundLocalError.

Inductive outcome (A : Type) : Type :=
| Done (a : A)
| Raised (e : exn).
Arguments Done {A} a.
Arguments Raised {A} e.

(** The local variables of the loop; [lineage_parts] is unbound until the
    branch that assigns it has run. *)
Record locals : Type := {
  lineage : string;
  lineage_name : string;
  lineage_parts : option (list string)
}.

Definition start : locals :=
  {| lineage := ""; lineage_name := ""; lineage_parts := None |}.

(** One turn of the loop over the lines. *)
Definition scan_line (st : locals) (line : string) : outcome locals :=
  let line := strip line in
  if contains "no precise lineage inferred" line then
    Done {| lineage := "mixed lineage(s)";
            lineage_name := "mixed lineage(s)";
            lineage_parts := lineage_parts st |}
  else if contains "Lineage:" line then
    let parts := str_split ":" line in
    if (3 <=? length parts)%nat then
      match split_ws (strip (default "" (parts !! 1))) with
      | [] => Raised IndexError
      | w :: _ =>
          Done {| lineage := w;
                  lineage_name := strip (default "" (parts !! 2));
                  lineage_parts := lineage_parts st |}
      end
    else if (length parts =? 2)%nat then
      let lineage_parts := split_ws_once (strip (default "" (parts !! 1))) in
      if (2 <=? length lineage_parts)%nat then
        Done {| lineage := default "" (lineage_parts !! 0);
                lineage_name := default "" (lineage_parts !! 1);
                lineage_parts := Some lineage_parts |}
      else
        Done {| lineage := lineage st;
                lineage_name := lineage_name st;
                lineage_parts := Some lineage_parts |}
    else
      match lineage_parts st with
      | None => Raised UnboundLocalError
      | Some [] => Raised IndexError
      | Some (w :: ws) =>
          Done {| lineage := w;
                  lineage_name := lineage_name st;
                  lineage_parts := Some (w :: ws) |}
      end
  else Done st.

Fixpoint scan (st : locals) (lines : list string) : outcome locals :=
  match lines with
  | [] => Done st
  | line :: lines' =>
      match scan_line st line with
      | Done st' => scan st' lines'
      | Raised e => Raised e
      end
  end.

(** [os.path.basename(inputFile).split("_")[0]] *)
Definition sample (inputFile : string) : string :=
  hd "" (str_split "_" (basename inputFile)).

Definition tab : string := String (Ascii.ascii_of_nat 9) EmptyString.
Definition newline : string := String (Ascii.ascii_of_nat 10) EmptyString.

(** The script on a file name and the lines of the file: what it writes to
    the output file, or the exception that ends it before it writes. *)
Definition create_lineage_report (inputFile : string) (lines : list string)
    : outcome string :=
  match scan start lines with
  | Done st =>
      Done ("Sample ID" +:+ tab +:+ "Lineage" +:+ tab +:+ "Lineage Name"
            +:+ newline
            +:+ sample inputFile +:+ tab +:+ lineage st +:+ tab
            +:+ lineage_name st +:+ newline)
  | Raised e => Raised e
  end.

End CreateLineageReport.

(** A line that stops [create_lineage_report]: once stripped it holds
    "Lineage:" and not "no precise lineage inferred", it has two colons or
    more, and between the first two there is only whitespace. *)
Definition blank_lineage (line : string) : bool :=
  let line := strip line in
  negb (contains "no precise lineage inferred" line)
  && contains "Lineage:" line
  && (3 <=? length (str_split ":" line))%nat
  && match split_ws (strip (default "" (str_split ":" line !! 1))) with
     | [] => true
     | _ :: _ => false
     end.

(** A line [create_lineage_report] reacts to: once stripped it holds one
    of the two phrases the loop looks for. *)
Definition decisive (line : string) : bool :=
  contains "no precise lineage inferred" (strip line)
  || contains "Lineage:" (strip line).



(** The character [c] does not occur in [s]. *)
Definition lacks (c : Ascii.ascii) (s : string) : Prop :=
  c ∉ String.list_ascii_of_string s.

(** * The lineage read back from the report

    Source: data/generic/reference-assets/varpipe/scripts/report_lineage_mlstype.py

    [parse_lineage] of that script scans the lines of a lineage report for
    the first one of three tab-separated fields whose first field is the
    sample identifier.  It returns nothing when there is none. *)

Module ReportLineageMlstype.

Fixpoint parse_lineage (lines : list string) (sample_id : string)
    : option string :=
  match lines with
  | [] => None
  | line :: lines' =>
      let parts := str_split (Ascii.ascii_of_nat 9) (strip line) in
      if (length parts =? 3)%nat
         && String.eqb (default "" (parts !! 0)) sample_id
      then
        let lineage := default "" (parts !! 1) in
        let lineage_name := default "" (parts !! 2) in
        if String.eqb lineage_name "mixed_lineage(s)" then Some "NoResult"
        else Some (lineage_name +:+ " (L" +:+ lineage +:+ ")")
      else parse_lineage lines' sample_id
  end.

End ReportLineageMlstype.

(** A report line of three fields, as both writers of the report end it. *)
Definition report_line (sample_id lineage lineage_name : string) : string :=
  sample_id +:+ CreateLineageReport.tab +:+ lineage
  +:+ CreateLineageReport.tab +:+ lineage_name +:+ CreateLineageReport.newline.

(** * The report as a file

    [parse_lineage] of lineage_parser writes [tsv_report] with
    [csv.writer(handle, dialect="excel-tab", lineterminator="\n")] (lines
    181 to 183): tab as delimiter, the double quote as quote character,
    minimal quoting, quote characters doubled.  [parse_lineage] of
    report_lineage_mlstype reads the file line by line in text mode.  The
    text below is what the file holds once [open] has succeeded; it is
    ASCII, as all text here. *)

(** The characters of [s] are ASCII, so that [s] stands for the Python
    string of the same characters. *)
Definition is_ascii (s : string) : bool :=
  forallb (λ c, (Ascii.nat_of_ascii c <? 128)%nat)
    (String.list_ascii_of_string s).

Definition delimiter : Ascii.ascii := Ascii.ascii_of_nat 9.
Definition quotechar : Ascii.ascii := Ascii.ascii_of_nat 34.
Definition line_feed : Ascii.ascii := Ascii.ascii_of_nat 10.
Definition carriage_return : Ascii.ascii := Ascii.ascii_of_nat 13.
Definition nul : Ascii.ascii := Ascii.ascii_of_nat 0.

(** The characters that make the writer quote a field: the delimiter, the
    quote character and the character of the line terminator. *)
Definition needs_quoting (c : Ascii.ascii) : bool :=
  Ascii.eqb c delimiter || Ascii.eqb c quotechar || Ascii.eqb c line_feed.

(** Every quote character of a quoted field is written twice. *)
Fixpoint doublequote (field : string) : string :=
  match field with
  | EmptyString => EmptyString
  | String c field' =>
      if Ascii.eqb c quotechar then String c (String c (doublequote field'))
      else String c (doublequote field')
  end.

(** A field as the writer puts it in a record: as it is, or between quote
    characters when one of its characters needs quoting.  A field with a
    carriage return or a NUL character is outside the model ([None]):
    neither occurs in a report that can be read back line by line, since
    the reader takes a carriage return for a line end and [open] refuses
    the file name made of a sample identifier with NUL. *)
Definition csv_field (field : string) : option string :=
  let chars := String.list_ascii_of_string field in
  if existsb (λ c, Ascii.eqb c carriage_return || Ascii.eqb c nul) chars
  then None
  else if existsb needs_quoting chars
  then Some (String quotechar
               (doublequote field +:+ String quotechar EmptyString))
  else Some field.

(** [writer.writerow(row)]: the fields joined by the delimiter and ended by
    the line terminator; a row of one empty field is written as an empty
    quoted field. *)
Definition writerow (row : list string) : option string :=
  fields ← mapM csv_field row;
  let record :=
    match fields with
    | [field] =>
        if String.eqb field EmptyString
        then String quotechar (String quotechar EmptyString)
        else field
    | _ => String.concat CreateLineageReport.tab fields
    end in
  Some (record +:+ CreateLineageReport.newline).

(** [writer.writerows(rows)]: the text of the file. *)
Definition writerows (rows : list (list string)) : option string :=
  records ← mapM writerow rows;
  Some (foldr String.append EmptyString records).

(** [for line in f] on a text without carriage return: the lines, each with
    the line feed that ends it; the last line has none when the text does
    not end with one. *)
Fixpoint file_lines (text : string) : list string :=
  match text with
  | EmptyString => []
  | String c text' =>
      if Ascii.eqb c line_feed then String c EmptyString :: file_lines text'
      else match file_lines text' with
           | [] => [String c EmptyString]
           | line :: lines => String c line :: lines
           end
  end.

(** The lines the reader finds in the report file that [parse_lineage]
    writes. *)
Definition tsv_lines (st : reports) : option (list string) :=
  file_lines <$> writerows (tsv_report st).

(** ** Running the script on small tables *)

Example run_single_lineage :
  parse_lineage [mk "100" "3" "A"; mk "200" "3.1.2" "T"]
                [obs "100" "A"; obs "200" "T"] "S1"
  = Ok {| tsv_report := [["Sample ID"; "Lineage"; "Lineage Name"];
                         ["S1"; "3"; "East-African-Indian"]];
          text_report := ["SNP 100 suggests lineage: 3";
                          "SNP 200 suggests sub-lineage: 3.1.2";
                          "Lineage: 3 East-African-Indian"] |}.
Proof. vm_compute. reflexivity. Qed.

Example run_two_lineages :
  parse_lineage [mk "100" "2" "A"; mk "200" "4" "T"]
                [obs "100" "A"; obs "200" "T"] "S1"
  = Ok {| tsv_report := [["Sample ID"; "Lineage"; "Lineage Name"];
                         ["S1"; "mixed lineage(s)"; "mixed lineage(s)"]];
          text_report := ["SNP 100 suggests lineage: 2";
                          "SNP 200 suggests lineage: 4";
                          "no concordance between predicted lineage and sublineage(s)"] |}.
Proof. vm_compute. reflexivity. Qed.

(** ** What the evidence loop collects *)

Lemma add_text_nil st : add_text st [] = st.
Proof. destruct st; unfold add_text; simpl. by rewrite app_nil_r. Qed.

Lemma add_text_app st l1 l2 : add_text (add_text st l1) l2 = add_text st (l1 ++ l2).
Proof. unfold add_text; simpl. by rewrite app_assoc. Qed.

Lemma deepest_snoc prevsub lineage :
  max_key_len (prevsub ++ [lineage]) = Ok (deepest (prevsub ++ [lineage])).
Proof. by destruct prevsub. Qed.

Lemma labels_cons pm row rows :
  labels pm (row :: rows)
  = match matched pm row with
    | Some l => l :: labels pm rows
    | None => labels pm rows
    end.
Proof. reflexivity. Qed.

Lemma detail_lines_cons pm row rows :
  detail_lines pm (row :: rows)
  = match matched pm row with
    | Some l => detail_line row l :: detail_lines pm rows
    | None => detail_lines pm rows
    end.
Proof. unfold detail_lines. simpl. by destruct (matched pm row). Qed.

(** One turn of the loop, by what the row brings. *)
Lemma detail_step_skip pm row rows sublin prevlin prevsub :
  matched pm row = None →
  _get_lineage_detail_from pm (row :: rows) sublin prevlin prevsub
  = _get_lineage_detail_from pm rows sublin prevlin prevsub.
Proof.
  unfold matched. intros Hm. simpl.
  destruct (pm !! POS row) as [mk|]; [|done].
  by case_bool_decide.
Qed.

Lemma detail_step_sub pm row rows sublin prevlin prevsub l st :
  matched pm row = Some l → 1 < String.length l →
  _get_lineage_detail_from pm (row :: rows) sublin prevlin prevsub st
  = _get_lineage_detail_from pm rows (deepest (prevsub ++ [l])) prevlin
      (prevsub ++ [l]) (add_text st [detail_line row l]).
Proof.
  unfold matched, detail_line. intros Hm Hlen. simpl.
  destruct (pm !! POS row) as [mk|]; [|done].
  case_bool_decide; [|done]. injection Hm as <-.
  apply Nat.ltb_lt in Hlen. rewrite Hlen.
  unfold mbind, M_bind. by rewrite deepest_snoc.
Qed.

Lemma detail_step_lin pm row rows sublin prevlin prevsub l st :
  matched pm row = Some l → String.length l ≤ 1 →
  _get_lineage_detail_from pm (row :: rows) sublin prevlin prevsub st
  = _get_lineage_detail_from pm rows sublin (prevlin ++ [l]) prevsub
      (add_text st [detail_line row l]).
Proof.
  unfold matched, detail_line. intros Hm Hlen. simpl.
  destruct (pm !! POS row) as [mk|]; [|done].
  case_bool_decide; [|done]. injection Hm as <-.
  apply Nat.ltb_ge in Hlen. by rewrite Hlen.
Qed.

Lemma get_lineage_detail_from_eq pm rows prevlin prevsub st :
  _get_lineage_detail_from pm rows (deepest prevsub) prevlin prevsub st
  = Ok ((deepest (prevsub ++ filter (λ l, 1 < String.length l) (labels pm rows)),
         prevlin ++ filter (λ l, String.length l ≤ 1) (labels pm rows),
         prevsub ++ filter (λ l, 1 < String.length l) (labels pm rows)),
        add_text st (detail_lines pm rows)).
Proof.
  revert prevlin prevsub st.
  induction rows as [|row rows IH]; intros prevlin prevsub st.
  - simpl. rewrite !app_nil_r, add_text_nil. reflexivity.
  - rewrite labels_cons, detail_lines_cons.
    destruct (matched pm row) as [l|] eqn:Hm.
    + destruct (decide (1 < String.length l)) as [Hlen|Hlen].
      * rewrite (detail_step_sub _ _ _ _ _ _ l) by done.
        rewrite IH, add_text_app.
        rewrite !filter_cons_True by done.
        rewrite filter_cons_False by lia.
        by rewrite <- !app_assoc.
      * rewrite (detail_step_lin _ _ _ _ _ _ l) by (done || lia).
        rewrite IH, add_text_app.
        rewrite !filter_cons_False by done.
        rewrite filter_cons_True by lia.
        by rewrite <- !app_assoc.
    + rewrite detail_step_skip by done. apply IH.
Qed.

Lemma get_lineage_detail_eq pm rows st :
  _get_lineage_detail pm rows st
  = Ok ((deepest (filter (λ l, 1 < String.length l) (labels pm rows)),
         filter (λ l, String.length l ≤ 1) (labels pm rows),
         filter (λ l, 1 < String.length l) (labels pm rows)),
        add_text st (detail_lines pm rows)).
Proof. apply (get_lineage_detail_from_eq pm rows [] [] st). Qed.

Lemma matched_is_Some pm row :
  is_Some (matched pm row)
  ↔ ∃ mk, pm !! POS row = Some mk ∧ Alt mk = ALT row.
Proof.
  unfold matched. destruct (pm !! POS row) as [mk|]; split.
  - case_bool_decide; [eauto | by intros [? ?]].
  - intros (mk' & [= <-] & Heq). by rewrite bool_decide_true.
  - by intros [? ?].
  - by intros (? & ? & _).
Qed.

Lemma labels_hits pm rows :
  labels pm (filter (λ row, is_Some (matched pm row)) rows) = labels pm rows.
Proof.
  induction rows as [|row rows IH]; [done|].
  destruct (matched pm row) as [l|] eqn:Hm.
  - rewrite filter_cons_True by (by rewrite Hm).
    rewrite !labels_cons, Hm. by f_equal.
  - rewrite filter_cons_False by (rewrite Hm; by intros [? ?]).
    by rewrite labels_cons, Hm.
Qed.

Lemma detail_lines_hits pm rows :
  detail_lines pm (filter (λ row, is_Some (matched pm row)) rows)
  = detail_lines pm rows.
Proof.
  induction rows as [|row rows IH]; [done|].
  destruct (matched pm row) as [l|] eqn:Hm.
  - rewrite filter_cons_True by (by rewrite Hm).
    rewrite !detail_lines_cons, Hm. by f_equal.
  - rewrite filter_cons_False by (rewrite Hm; by intros [? ?]).
    by rewrite detail_lines_cons, Hm.
Qed.

Lemma length_labels pm rows :
  length (labels pm rows)
  = length (filter (λ row, is_Some (matched pm row)) rows).
Proof.
  induction rows as [|row rows IH]; [done|].
  rewrite labels_cons. destruct (matched pm row) as [l|] eqn:Hm.
  - rewrite filter_cons_True by (by rewrite Hm). simpl. by f_equal.
  - by rewrite filter_cons_False by (rewrite Hm; by intros [? ?]).
Qed.

Lemma length_detail_lines pm rows :
  length (detail_lines pm rows) = length (labels pm rows).
Proof.
  induction rows as [|row rows IH]; [done|].
  rewrite labels_cons, detail_lines_cons.
  destruct (matched pm row); simpl; [by f_equal | done].
Qed.

Lemma length_by_kind (ls : list string) :
  length (filter (λ l, String.length l ≤ 1) ls)
  + length (filter (λ l, 1 < String.length l) ls) = length ls.
Proof.
  induction ls as [|l ls IH]; [done|].
  destruct (decide (1 < String.length l)).
  - rewrite filter_cons_False by lia. rewrite filter_cons_True by done.
    simpl. lia.
  - rewrite filter_cons_True by lia. rewrite filter_cons_False by done.
    simpl. lia.
Qed.

(** C7: the evidence loop emits evidence and a narrative line for a row
    only when the row's position is a key of the marker mapping and its
    allele equals the marker's expected allele.  Rows whose position is
    absent, or present with another allele, can be removed from the variant
    table without changing what the loop returns or writes; the number of
    evidence labels and the number of narrative lines both equal the number
    of matching rows. *)
Theorem C7_evidence_only_on_match pm rows st :
  let hit := λ row, is_Some (matched pm row) in
  (∀ row, hit row ↔ ∃ mk, pm !! POS row = Some mk ∧ Alt mk = ALT row)
  ∧ _get_lineage_detail pm rows st = _get_lineage_detail pm (filter hit rows) st
  ∧ ∃ sublin prevlin prevsub lines,
      _get_lineage_detail pm rows st
        = Ok ((sublin, prevlin, prevsub), add_text st lines)
      ∧ length prevlin + length prevsub = length (filter hit rows)
      ∧ length lines = length (filter hit rows).
Proof.
  intros hit. split; [intros row; apply matched_is_Some|]. split.
  - rewrite !get_lineage_detail_eq. subst hit.
    by rewrite labels_hits, detail_lines_hits.
  - eexists _, _, _, _. split; [apply get_lineage_detail_eq|].
    rewrite length_by_kind, length_detail_lines. by rewrite length_labels.
Qed.

(** A row whose allele differs from the marker's leaves the loop's state as
    it was: no label is collected and no line is written. *)
Lemma mismatch_is_skipped pm row rows mk sublin prevlin prevsub :
  pm !! POS row = Some mk → Alt mk ≠ ALT row →
  _get_lineage_detail_from pm (row :: rows) sublin prevlin prevsub
  = _get_lineage_detail_from pm rows sublin prevlin prevsub.
Proof.
  intros Hpos Halt. apply detail_step_skip. unfold matched.
  rewrite Hpos. by rewrite bool_decide_false.
Qed.

(** C4 (amended): the kind of evidence is decided by the number of
    characters of the label, not by its number of hierarchy levels: of the
    labels of the matching rows, in row order, those of at most one
    character are the lineage evidence and those of more than one character
    are the sublineage evidence. *)
Theorem C4_kind_by_label_length pm rows st :
  ∃ sublin prevlin prevsub st',
    _get_lineage_detail pm rows st = Ok ((sublin, prevlin, prevsub), st')
    ∧ prevlin = filter (λ l, String.length l ≤ 1) (labels pm rows)
    ∧ prevsub = filter (λ l, 1 < String.length l) (labels pm rows).
Proof. eexists _, _, _, _. split; [apply get_lineage_detail_eq|done]. Qed.

(** C4, as stated, fails: the label "10" has one hierarchy level and no
    dot, and its match is recorded as sublineage evidence. *)
Lemma C4_one_level_label_taken_as_sublineage :
  length (str_split "." "10") = 1
  ∧ _get_lineage_detail (position_map_of [mk "100" "10" "A"]) [obs "100" "A"]
      initial_reports
    = Ok (("10", [], ["10"]),
          add_text initial_reports ["SNP 100 suggests sub-lineage: 10"]).
Proof. split; vm_compute; reflexivity. Qed.

(** ** The reporting functions *)

Lemma str_split_cons sep s : ∃ piece pieces, str_split sep s = piece :: pieces.
Proof.
  destruct s as [|c s]; simpl; [eauto|].
  destruct (Ascii.eqb c sep); [eauto|].
  destruct (str_split sep s); eauto.
Qed.

Lemma str_split_top s : ∃ pieces, str_split "." s = top s :: pieces.
Proof.
  unfold top. destruct (str_split_cons "." s) as (p & ps & ->). simpl. eauto.
Qed.

Lemma index_split_0 s : index (str_split "." s) 0 = Ok (top s).
Proof. destruct (str_split_top s) as [ps ->]. reflexivity. Qed.

Lemma report_mixed_eq sid st :
  _report_mixed_lineage sid st
  = Ok (tt, add_verdict st (mixed_row sid) ["no precise lineage inferred"]).
Proof. reflexivity. Qed.

Lemma report_tribe_eq sid tags d f pieces tribe name st :
  tribe_map !! tribe = Some name →
  _report_tribe sid tags d (f :: pieces) tribe st
  = Ok (tt, if d || animals tags
            then add_verdict st (mixed_row sid) ["no precise lineage inferred"]
            else add_verdict st [sid; f; name]
                   ["Lineage: " +:+ tribe +:+ " " +:+ name]).
Proof.
  intros Hname. unfold _report_tribe.
  destruct (d || animals tags); [reflexivity|].
  unfold mbind, M_bind, lift, getitem. rewrite Hname. reflexivity.
Qed.

Lemma report_prevlin_eq sid p rest name st :
  tribe_map !! p = Some name →
  _report_prevlin sid (p :: rest) st
  = Ok (tt, add_verdict st [sid; p; name] ["Lineage: " +:+ p +:+ " " +:+ name]).
Proof.
  intros Hname. unfold _report_prevlin, mbind, M_bind, lift, getitem. simpl.
  rewrite Hname. reflexivity.
Qed.

Lemma report_linfour_eq sid tags st :
  _report_linfour sid tags st
  = Ok (tt, if animals tags
            then add_verdict st (mixed_row sid) ["no precise lineage inferred"]
            else add_verdict st [sid; "4"; "Euro-American"]
                   (["Absence of SNP 931123 suggests lineage 4"]
                    ++ (if bool_decide ("hrv37" ∈ tags) then []
                        else ["Absence of SNP 1759252 suggests sublineage 4.9"])
                    ++ ["Lineage: 4 Euro-American"])).
Proof.
  unfold _report_linfour. destruct (animals tags); [reflexivity|].
  case_bool_decide; unfold mbind, M_bind, add_verdict; simpl;
    by rewrite <- ?app_assoc.
Qed.

Lemma report_animals_none sid tags st :
  animals tags = false →
  _report_animals sid tags st
  = Ok (tt, add_verdict st
              [sid; "No Informative SNPs detected"; "No Informative SNPs detected"]
              ["No Informative SNPs detected"]).
Proof.
  unfold animals, _report_animals, animal_map. simpl. intros Han.
  repeat (case_bool_decide; [discriminate|]). reflexivity.
Qed.

Lemma report_animals_total sid tags st :
  ∃ row lines, _report_animals sid tags st = Ok (tt, add_verdict st row lines).
Proof.
  unfold _report_animals, animal_map. simpl.
  repeat (case_bool_decide; [eexists _, _; reflexivity|]).
  eexists _, _; reflexivity.
Qed.

Lemma animal_notes_eq tags :
  ∃ notes, (animals tags = false → notes = [])
           ∧ ∀ st, animal_notes tags animal_map st = Ok (tt, add_text st notes).
Proof.
  assert (Hstep : ∀ st (b : bool) pos species (k : M unit),
    ((if b then pos' ← lift (Ok pos);
                text_append ("SNP " +:+ pos' +:+ " suggests " +:+ species)
      else mret tt);; k) st
    = k (add_text st (if b then ["SNP " +:+ pos +:+ " suggests " +:+ species]
                      else []))).
  { intros st [] pos species k; unfold mbind, M_bind; simpl.
    - reflexivity.
    - by rewrite add_text_nil. }
  eexists. split; [|intros st].
  2:{ unfold animal_map, animal_notes.
      change (getitem tag_snps "BCG") with (@Ok string "8624").
      change (getitem tag_snps "BOV") with (@Ok string "2289073").
      change (getitem tag_snps "ORYX") with (@Ok string "2726378").
      change (getitem tag_snps "CAP") with (@Ok string "2831482").
      rewrite !Hstep. unfold mret, M_ret. rewrite !add_text_app. reflexivity. }
  unfold animals, animal_map. simpl. intros Han.
  repeat (case_bool_decide; [discriminate|]). reflexivity.
Qed.

(** ** The run, stage by stage *)

Lemma get_lineage_detail_eq' pm rows st :
  _get_lineage_detail pm rows st
  = Ok ((deepest (subs pm rows), lins pm rows, subs pm rows),
        add_text st (detail_lines pm rows)).
Proof. apply get_lineage_detail_eq. Qed.

(** What the loop returned determines what it returns from any other state
    of the reports. *)
Lemma get_lineage_detail_inv pm rows st sublin prevlin prevsub st' :
  _get_lineage_detail pm rows st = Ok ((sublin, prevlin, prevsub), st') →
  sublin = deepest prevsub ∧ prevlin = lins pm rows ∧ prevsub = subs pm rows
  ∧ st' = add_text st (detail_lines pm rows).
Proof. rewrite get_lineage_detail_eq'. by intros [= <- <- <- <-]. Qed.

Lemma run_eq pm rows sid tags :
  ∃ notes, (animals tags = false → notes = [])
    ∧ (∀ st, animal_notes tags animal_map st = Ok (tt, add_text st notes))
    ∧ ∀ st, run pm rows sid tags st
            = resolve sid tags (deepest (subs pm rows)) (lins pm rows)
                (subs pm rows) (add_text st (notes ++ detail_lines pm rows)).
Proof.
  destruct (animal_notes_eq tags) as (notes & Hnone & Hnotes).
  exists notes. split; [done|]. split; [done|]. intros st.
  unfold run, mbind, M_bind. rewrite Hnotes, get_lineage_detail_eq'.
  by rewrite add_text_app.
Qed.

Lemma parse_lineage_eq markers rows sid :
  parse_lineage markers rows sid
  = match run (position_map_of markers) rows sid (tags_of rows) initial_reports with
    | Ok (_, st) => Ok st
    | Raise e => Raise e
    end.
Proof. reflexivity. Qed.

Lemma no_evidence_no_lines pm rows :
  lins pm rows = [] → subs pm rows = [] → detail_lines pm rows = [].
Proof.
  intros Hl Hs. apply length_zero_iff_nil.
  rewrite length_detail_lines, <- length_by_kind.
  fold (lins pm rows) (subs pm rows). by rewrite Hl, Hs.
Qed.

(** ** Which tags are present *)

Lemma elem_of_tags_from order t :
  t ∈ tags_from order ↔ ∃ pos, pos ∈ order ∧ snp_tags !! pos = Some t.
Proof.
  unfold tags_from. rewrite elem_of_list_to_set, list_elem_of_omap. done.
Qed.

Lemma elem_of_tags_of rows t :
  t ∈ tags_of rows ↔ ∃ pos, pos ∈ POS <$> rows ∧ snp_tags !! pos = Some t.
Proof.
  unfold tags_of. rewrite elem_of_tags_from.
  split; intros (pos & Hin & Ht); exists pos; split; try done.
  - apply elem_of_elements in Hin. by apply elem_of_list_to_set in Hin.
  - apply elem_of_elements. by apply elem_of_list_to_set.
Qed.

Lemma snp_tags_inv pos t :
  snp_tags !! pos = Some t → (pos, t) ∈ snp_tags_items.
Proof. apply elem_of_list_to_map_2. Qed.

Lemma linfour_observed rows :
  "linfour" ∈ tags_of rows ↔ "931123" ∈ POS <$> rows.
Proof.
  rewrite elem_of_tags_of. split.
  - intros (pos & Hin & Ht). apply snp_tags_inv in Ht.
    unfold snp_tags_items in Ht.
    repeat (apply elem_of_cons in Ht as [[= -> ]|Ht]; try done).
    by apply elem_of_nil in Ht.
  - intros Hin. by exists "931123".
Qed.

Lemma hrv37_observed rows :
  "hrv37" ∈ tags_of rows ↔ "1759252" ∈ POS <$> rows.
Proof.
  rewrite elem_of_tags_of. split.
  - intros (pos & Hin & Ht). apply snp_tags_inv in Ht.
    unfold snp_tags_items in Ht.
    repeat (apply elem_of_cons in Ht as [[= -> ]|Ht]; try done).
    by apply elem_of_nil in Ht.
  - intros Hin. by exists "1759252".
Qed.

(** ** No evidence at all *)

Lemma resolve_no_evidence sid tags st :
  resolve sid tags "" [] [] st
  = if bool_decide ("linfour" ∈ tags) then _report_animals sid tags st
    else _report_linfour sid tags st.
Proof. unfold resolve. simpl. by case_bool_decide. Qed.

Lemma no_position_no_label pm rows :
  Forall (λ row, pm !! POS row = None) rows → labels pm rows = [].
Proof.
  induction 1 as [|row rows Hrow _ IH]; [done|].
  rewrite labels_cons. unfold matched at 1. by rewrite Hrow.
Qed.

(** C8: with no lineage and no sublineage evidence, no animal-strain tag,
    and neither position 931123 nor position 1759252 among the observed
    positions, the verdict is lineage "4", "Euro-American", and the
    narrative log is the two absence notes followed by the lineage line. *)
Theorem C8_absence_inference markers snp_data sample_id sublin st' :
  _get_lineage_detail (position_map_of markers) snp_data initial_reports
    = Ok ((sublin, [], []), st') →
  animals (tags_of snp_data) = false →
  "931123" ∉ POS <$> snp_data →
  "1759252" ∉ POS <$> snp_data →
  parse_lineage markers snp_data sample_id
  = Ok {| tsv_report := [["Sample ID"; "Lineage"; "Lineage Name"];
                         [sample_id; "4"; "Euro-American"]];
          text_report := ["Absence of SNP 931123 suggests lineage 4";
                          "Absence of SNP 1759252 suggests sublineage 4.9";
                          "Lineage: 4 Euro-American"] |}.
Proof.
  intros Hdetail Han Hlinfour Hhrv.
  apply get_lineage_detail_inv in Hdetail as (_ & Hl & Hs & _).
  rewrite parse_lineage_eq.
  destruct (run_eq (position_map_of markers) snp_data sample_id
              (tags_of snp_data)) as (notes & Hnone & _ & ->).
  rewrite (Hnone Han), <- Hl, <- Hs, no_evidence_no_lines by done.
  rewrite add_text_nil, resolve_no_evidence.
  rewrite bool_decide_false by (by rewrite linfour_observed).
  rewrite report_linfour_eq, Han.
  by rewrite bool_decide_false by (by rewrite hrv37_observed).
Qed.

Lemma C8_absence_inference_witness :
  parse_lineage [mk "931123" "" "A"; mk "1759252" "" "G"; mk "100" "2" "T"]
                [obs "555" "C"; obs "100" "G"] "S1"
  = Ok {| tsv_report := [["Sample ID"; "Lineage"; "Lineage Name"];
                         ["S1"; "4"; "Euro-American"]];
          text_report := ["Absence of SNP 931123 suggests lineage 4";
                          "Absence of SNP 1759252 suggests sublineage 4.9";
                          "Lineage: 4 Euro-American"] |}.
Proof.
  apply (C8_absence_inference _ _ _ "" initial_reports).
  - vm_compute. reflexivity.
  - vm_compute. reflexivity.
  - apply (bool_decide_unpack _). vm_compute. exact I.
  - apply (bool_decide_unpack _). vm_compute. exact I.
Defined.

(** C2 (amended): when no position of the variant table is a key of the
    marker mapping and no animal-strain tag is present, the verdict is never
    the indeterminate one.  It is the lineage "4", "Euro-American" inference
    from absence when position 931123 is not observed, so in particular when
    no special tag is present; it is the explicit "No Informative SNPs
    detected" outcome when position 931123 is observed. *)
Theorem C2_no_marker_position_observed markers snp_data sample_id :
  Forall (λ row, position_map_of markers !! POS row = None) snp_data →
  animals (tags_of snp_data) = false →
  parse_lineage markers snp_data sample_id
  = Ok (if bool_decide ("931123" ∈ POS <$> snp_data)
        then add_verdict initial_reports
               [sample_id; "No Informative SNPs detected";
                "No Informative SNPs detected"]
               ["No Informative SNPs detected"]
        else add_verdict initial_reports
               [sample_id; "4"; "Euro-American"]
               (["Absence of SNP 931123 suggests lineage 4"]
                ++ (if bool_decide ("1759252" ∈ POS <$> snp_data) then []
                    else ["Absence of SNP 1759252 suggests sublineage 4.9"])
                ++ ["Lineage: 4 Euro-American"])).
Proof.
  intros Hpos Han. apply no_position_no_label in Hpos.
  rewrite parse_lineage_eq.
  destruct (run_eq (position_map_of markers) snp_data sample_id
              (tags_of snp_data)) as (notes & Hnone & _ & ->).
  assert (Hlines : detail_lines (position_map_of markers) snp_data = []).
  { apply length_zero_iff_nil. by rewrite length_detail_lines, Hpos. }
  rewrite (Hnone Han), Hlines. unfold subs, lins.
  rewrite Hpos, !filter_nil. simpl deepest.
  rewrite add_text_nil, resolve_no_evidence.
  rewrite (bool_decide_ext _ _ (linfour_observed snp_data)).
  case_bool_decide.
  - by rewrite report_animals_none.
  - rewrite report_linfour_eq, Han.
    by rewrite (bool_decide_ext _ _ (hrv37_observed snp_data)).
Qed.

Lemma C2_no_marker_position_observed_witness :
  parse_lineage [mk "100" "2" "T"] [obs "931123" "C"; obs "555" "G"] "S1"
  = Ok {| tsv_report := [["Sample ID"; "Lineage"; "Lineage Name"];
                         ["S1"; "No Informative SNPs detected";
                          "No Informative SNPs detected"]];
          text_report := ["No Informative SNPs detected"] |}.
Proof.
  apply (C2_no_marker_position_observed [mk "100" "2" "T"]
           [obs "931123" "C"; obs "555" "G"] "S1").
  - repeat constructor.
  - vm_compute. reflexivity.
Defined.

(** C2, as stated, fails: no observed position is a marker position and no
    special tag is present, and the verdict is lineage "4", not
    "No Informative SNPs detected". *)
Lemma C2_no_match_gives_lineage_four :
  Forall (λ row, position_map_of [mk "100" "2" "T"] !! POS row = None)
         [obs "555" "G"]
  ∧ tags_of [obs "555" "G"] = ∅
  ∧ parse_lineage [mk "100" "2" "T"] [obs "555" "G"] "S1"
    = Ok {| tsv_report := [["Sample ID"; "Lineage"; "Lineage Name"];
                           ["S1"; "4"; "Euro-American"]];
            text_report := ["Absence of SNP 931123 suggests lineage 4";
                            "Absence of SNP 1759252 suggests sublineage 4.9";
                            "Lineage: 4 Euro-American"] |}.
Proof.
  split; [repeat constructor|]. split; vm_compute; reflexivity.
Qed.

(** ** One lineage label *)

Lemma resolve_single_alone sid tags l st :
  resolve sid tags "" [l] [] st = _report_prevlin sid [l] st.
Proof. reflexivity. Qed.

(** C9 (amended): when exactly one lineage label is collected, that label is
    a key of the display-name table, and no sublineage evidence is
    collected, the verdict is that label and its display name whichever
    tags are present; the notes on the animal tags only come first in the
    narrative log, before the evidence lines and the lineage line. *)
Theorem C9_single_lineage_ignores_animal_tags
    markers snp_data sample_id sublin l st' name :
  _get_lineage_detail (position_map_of markers) snp_data initial_reports
    = Ok ((sublin, [l], []), st') →
  tribe_map !! l = Some name →
  ∃ notes,
    animal_notes (tags_of snp_data) animal_map initial_reports
      = Ok (tt, add_text initial_reports notes)
    ∧ parse_lineage markers snp_data sample_id
      = Ok {| tsv_report := [["Sample ID"; "Lineage"; "Lineage Name"];
                             [sample_id; l; name]];
              text_report := notes ++ text_report st'
                             ++ ["Lineage: " +:+ l +:+ " " +:+ name] |}.
Proof.
  intros Hdetail Hname.
  apply get_lineage_detail_inv in Hdetail as (_ & Hl & Hs & ->).
  destruct (run_eq (position_map_of markers) snp_data sample_id
              (tags_of snp_data)) as (notes & _ & Hnotes & Hrun).
  exists notes. split; [apply Hnotes|].
  rewrite parse_lineage_eq, Hrun, <- Hl, <- Hs. simpl deepest.
  rewrite resolve_single_alone, (report_prevlin_eq _ _ _ name) by done.
  unfold add_verdict, add_text, initial_reports. simpl.
  by rewrite <- app_assoc.
Qed.

Lemma C9_single_lineage_ignores_animal_tags_witness :
  ∃ notes,
    animal_notes (tags_of [obs "8624" "C"; obs "100" "A"; obs "2289073" "T"])
      animal_map initial_reports
      = Ok (tt, add_text initial_reports notes)
    ∧ parse_lineage [mk "100" "3" "A"]
        [obs "8624" "C"; obs "100" "A"; obs "2289073" "T"] "S1"
      = Ok {| tsv_report := [["Sample ID"; "Lineage"; "Lineage Name"];
                             ["S1"; "3"; "East-African-Indian"]];
              text_report := notes ++ ["SNP 100 suggests lineage: 3"]
                             ++ ["Lineage: 3 East-African-Indian"] |}.
Proof.
  apply (C9_single_lineage_ignores_animal_tags [mk "100" "3" "A"]
           [obs "8624" "C"; obs "100" "A"; obs "2289073" "T"] "S1" ""
           "3" (add_text initial_reports ["SNP 100 suggests lineage: 3"])
           "East-African-Indian").
  - vm_compute. reflexivity.
  - vm_compute. reflexivity.
Defined.

(** C9, as stated, fails: the one lineage label "8" is collected, no
    sublineage evidence is, and the position of the animal tag BCG is
    observed; the note on the tag is written, then [_report_prevlin]
    subscripts [tribe_map] with "8" and the run ends with [KeyError]: there
    is no verdict, and no display name for it to hold. *)
Lemma C9_unknown_label_with_animal_tag_raises :
  _get_lineage_detail (position_map_of [mk "100" "8" "A"])
    [obs "100" "A"; obs "8624" "C"] initial_reports
  = Ok (("", ["8"], []),
        add_text initial_reports ["SNP 100 suggests lineage: 8"])
  ∧ "BCG" ∈ tags_of [obs "100" "A"; obs "8624" "C"]
  ∧ animal_notes (tags_of [obs "100" "A"; obs "8624" "C"]) animal_map
      initial_reports
    = Ok (tt, add_text initial_reports ["SNP 8624 suggests M. bovis-BCG"])
  ∧ tribe_map !! "8" = None
  ∧ parse_lineage [mk "100" "8" "A"] [obs "100" "A"; obs "8624" "C"] "S1"
    = Raise KeyError.
Proof.
  split; [vm_compute; reflexivity|].
  split; [apply (bool_decide_unpack _); vm_compute; exact I|].
  repeat split; vm_compute; reflexivity.
Qed.

Example run_single_lineage_with_animal_tags :
  parse_lineage [mk "100" "3" "A"]
    [obs "8624" "C"; obs "100" "A"; obs "2289073" "T"] "S1"
  = Ok {| tsv_report := [["Sample ID"; "Lineage"; "Lineage Name"];
                         ["S1"; "3"; "East-African-Indian"]];
          text_report := ["SNP 8624 suggests M. bovis-BCG";
                          "SNP 2289073 suggests M. bovis";
                          "SNP 100 suggests lineage: 3";
                          "Lineage: 3 East-African-Indian"] |}.
Proof. vm_compute. reflexivity. Qed.

Lemma longer_cases a b : longer a b = a ∨ longer a b = b.
Proof. unfold longer. destruct (_ <? _)%nat; auto. Qed.

Lemma foldl_longer_elem x xs : foldl longer x xs ∈ x :: xs.
Proof.
  revert x. induction xs as [|y ys IH]; intros x; simpl; [by left|].
  specialize (IH (longer x y)).
  apply elem_of_cons in IH as [->|IH]; [|by do 2 right].
  destruct (longer_cases x y) as [->| ->]; [by left | by right; left].
Qed.

Lemma deepest_elem prevsub : prevsub ≠ [] → deepest prevsub ∈ prevsub.
Proof. destruct prevsub; [done|]. intros _. apply foldl_longer_elem. Qed.

Lemma str_true_length s : 0 < String.length s → str_true s = true.
Proof. destruct s; simpl; [lia|done]. Qed.

Lemma subs_long pm rows : Forall (λ l, 1 < String.length l) (subs pm rows).
Proof. unfold subs. by apply Forall_forall; intros l [? _]%list_elem_of_filter. Qed.

Lemma check_sublin_discordance_eq p rest f pieces prevsub :
  _check_sublin_discordance (p :: rest) (f :: pieces) prevsub
  = Ok (existsb (λ sub, negb (String.eqb (top sub) p)
                        || negb (String.eqb (top sub) f)) prevsub).
Proof.
  induction prevsub as [|sub prevsub IH]; [done|].
  simpl. rewrite index_split_0. unfold mbind, result_bind. simpl.
  destruct (String.eqb (top sub) p); simpl; [|done].
  destruct (String.eqb (top sub) f); simpl; [|done].
  apply IH.
Qed.

(** With one lineage label [l], discordance is raised exactly when some
    sublineage label has a top-level component other than [l]. *)
Lemma sublin_discordance_single l prevsub :
  prevsub ≠ [] →
  ∃ pieces,
    str_split "." (deepest prevsub) = top (deepest prevsub) :: pieces
    ∧ _check_sublin_discordance [l] (str_split "." (deepest prevsub)) prevsub
      = Ok (negb (forallb (λ sub, String.eqb (top sub) l) prevsub))
    ∧ (forallb (λ sub, String.eqb (top sub) l) prevsub = true →
       top (deepest prevsub) = l).
Proof.
  intros Hne. destruct (str_split_top (deepest prevsub)) as [pieces Hsplit].
  exists pieces. split; [done|].
  assert (Htop : forallb (λ sub, String.eqb (top sub) l) prevsub = true →
                 top (deepest prevsub) = l).
  { intros Hall. rewrite forallb_forall in Hall.
    apply String.eqb_eq, Hall, list_elem_of_In. by apply deepest_elem. }
  split; [|done].
  rewrite Hsplit, check_sublin_discordance_eq. f_equal.
  destruct (forallb _ prevsub) eqn:Hall; simpl.
  - rewrite (Htop eq_refl). clear -Hall.
    induction prevsub as [|sub prevsub IH]; [done|].
    simpl in *. apply andb_prop in Hall as [-> Hall]. simpl. by apply IH.
  - clear -Hall. generalize (top (deepest prevsub)). intros f.
    induction prevsub as [|sub prevsub IH]; [done|].
    simpl in *. destruct (String.eqb (top sub) l); simpl in *; [|done].
    rewrite IH by done. by rewrite orb_true_r.
Qed.

Lemma list_true_ne {A} (l : list A) : l ≠ [] → list_true l = true.
Proof. by destruct l. Qed.

Lemma deepest_true prevsub :
  prevsub ≠ [] → Forall (λ l, str_true l = true) prevsub →
  str_true (deepest prevsub) = true.
Proof.
  intros Hne Hlong. rewrite Forall_forall in Hlong.
  apply Hlong. by apply deepest_elem.
Qed.

Lemma subs_true pm rows : Forall (λ l, str_true l = true) (subs pm rows).
Proof.
  eapply Forall_impl; [apply subs_long|].
  intros l Hl. simpl in Hl. apply str_true_length. lia.
Qed.

Lemma resolve_single sid tags l prevsub name st :
  Forall (λ l, str_true l = true) prevsub →
  tribe_map !! l = Some name →
  resolve sid tags (deepest prevsub) [l] prevsub st
  = Ok (tt, if negb (forallb (λ sub, String.eqb (top sub) l) prevsub)
               || list_true prevsub && animals tags
            then add_verdict st (mixed_row sid) ["no precise lineage inferred"]
            else add_verdict st [sid; l; name]
                   ["Lineage: " +:+ l +:+ " " +:+ name]).
Proof.
  intros Hlong Hname. destruct (decide (prevsub = [])) as [->|Hne].
  { simpl. rewrite resolve_single_alone. by apply report_prevlin_eq. }
  destruct (sublin_discordance_single l prevsub Hne)
    as (pieces & Hsplit & Hcheck & Htop).
  unfold resolve.
  rewrite (deepest_true prevsub), (list_true_ne prevsub) by done.
  cbn [list_true negb andb length Nat.eqb].
  unfold mbind, M_bind, lift. rewrite Hcheck. cbn [index lookup list_lookup].
  rewrite Hsplit, (report_tribe_eq _ _ _ _ _ _ name) by done.
  destruct (forallb _ prevsub) eqn:Hall; simpl; [|done].
  by rewrite (Htop eq_refl).
Qed.

(** C1 (amended): when exactly one lineage label is collected, it has a
    display name, and no animal-strain tag is present, the verdict's lineage
    code is that label if every sublineage label collected with it has that
    label as its top-level component (so also when there is none); if some
    sublineage label has another top-level component, the verdict is
    "mixed lineage(s)". *)
Theorem C1_single_lineage_without_animal_tag
    markers snp_data sample_id sublin l prevsub st' name :
  _get_lineage_detail (position_map_of markers) snp_data initial_reports
    = Ok ((sublin, [l], prevsub), st') →
  animals (tags_of snp_data) = false →
  tribe_map !! l = Some name →
  parse_lineage markers snp_data sample_id
  = Ok (if forallb (λ sub, String.eqb (top sub) l) prevsub
        then add_verdict st' [sample_id; l; name]
               ["Lineage: " +:+ l +:+ " " +:+ name]
        else add_verdict st' (mixed_row sample_id)
               ["no precise lineage inferred"]).
Proof.
  intros Hdetail Han Hname.
  apply get_lineage_detail_inv in Hdetail as (_ & Hl & Hs & ->).
  rewrite parse_lineage_eq.
  destruct (run_eq (position_map_of markers) snp_data sample_id
              (tags_of snp_data)) as (notes & Hnone & _ & ->).
  rewrite (Hnone Han), <- Hl. simpl app.
  rewrite (resolve_single _ _ _ _ name) by (done || apply subs_true).
  rewrite Han, andb_false_r, orb_false_r, <- Hs.
  by destruct (forallb _ prevsub).
Qed.

Lemma C1_single_lineage_without_animal_tag_witness :
  parse_lineage [mk "100" "3" "A"; mk "200" "3.1.2" "T"; mk "300" "3.1" "G"]
                [obs "200" "T"; obs "100" "A"; obs "300" "G"] "S1"
  = Ok {| tsv_report := [["Sample ID"; "Lineage"; "Lineage Name"];
                         ["S1"; "3"; "East-African-Indian"]];
          text_report := ["SNP 200 suggests sub-lineage: 3.1.2";
                          "SNP 100 suggests lineage: 3";
                          "SNP 300 suggests sub-lineage: 3.1";
                          "Lineage: 3 East-African-Indian"] |}.
Proof.
  apply (C1_single_lineage_without_animal_tag
           [mk "100" "3" "A"; mk "200" "3.1.2" "T"; mk "300" "3.1" "G"]
           [obs "200" "T"; obs "100" "A"; obs "300" "G"] "S1"
           "3.1.2" "3" ["3.1.2"; "3.1"]
           (add_text initial_reports
              ["SNP 200 suggests sub-lineage: 3.1.2";
               "SNP 100 suggests lineage: 3";
               "SNP 300 suggests sub-lineage: 3.1"])
           "East-African-Indian").
  - vm_compute. reflexivity.
  - vm_compute. reflexivity.
  - vm_compute. reflexivity.
Defined.

(** C1, as stated, fails: one lineage label "4", no animal tag, and a
    sublineage label "2.1" of another lineage give "mixed lineage(s)". *)
Lemma C1_discordant_sublineage_gives_mixed :
  _get_lineage_detail (position_map_of [mk "100" "4" "A"; mk "200" "2.1" "T"])
      [obs "100" "A"; obs "200" "T"] initial_reports
    = Ok (("2.1", ["4"], ["2.1"]),
          add_text initial_reports ["SNP 100 suggests lineage: 4";
                                    "SNP 200 suggests sub-lineage: 2.1"])
  ∧ animals (tags_of [obs "100" "A"; obs "200" "T"]) = false
  ∧ parse_lineage [mk "100" "4" "A"; mk "200" "2.1" "T"]
                  [obs "100" "A"; obs "200" "T"] "S1"
    = Ok {| tsv_report := [["Sample ID"; "Lineage"; "Lineage Name"];
                           ["S1"; "mixed lineage(s)"; "mixed lineage(s)"]];
            text_report := ["SNP 100 suggests lineage: 4";
                            "SNP 200 suggests sub-lineage: 2.1";
                            "no precise lineage inferred"] |}.
Proof. repeat split; vm_compute; reflexivity. Qed.

(** ** Several lineage labels *)

Lemma any_differs_eq p rest lins :
  any_differs (p :: rest) lins
  = Ok (existsb (λ lin, negb (String.eqb p lin)) lins).
Proof.
  induction lins as [|lin lins IH]; [done|].
  simpl. unfold mbind, result_bind. simpl.
  destruct (String.eqb p lin); simpl; [apply IH|done].
Qed.

Lemma resolve_multiple sid tags sublin p q rest prevsub st :
  resolve sid tags sublin (p :: q :: rest) prevsub st
  = if existsb (λ lin, negb (String.eqb p lin)) (q :: rest)
    then Ok (tt, add_verdict st (mixed_row sid)
                   ["no concordance between predicted lineage and sublineage(s)"])
    else _report_prevlin sid (p :: q :: rest) st.
Proof.
  unfold resolve. cbn [list_true negb length Nat.eqb].
  unfold _check_multiple_discordance. rewrite any_differs_eq.
  unfold mbind, M_bind, lift. cbn [existsb]. rewrite String.eqb_refl.
  cbn [negb orb]. by destruct (_ || _).
Qed.

Lemma existsb_differs p (lins : list string) :
  existsb (λ lin, negb (String.eqb p lin)) lins = true
  ↔ ∃ lin, lin ∈ lins ∧ lin ≠ p.
Proof.
  rewrite existsb_exists. split; intros (lin & Hin & Hne); exists lin.
  - split; [by apply list_elem_of_In|].
    intros ->. by rewrite String.eqb_refl in Hne.
  - split; [by apply list_elem_of_In|].
    apply negb_true_iff, String.eqb_neq. congruence.
Qed.

(** C5 (amended): when two or more lineage labels are collected, the verdict
    is "mixed lineage(s)" with the line "no concordance between predicted
    lineage and sublineage(s)" if two of the labels differ; if all of them
    are the same label, and that label is a key of the display-name table,
    the verdict is that label with its display name.  Tags and sublineage
    labels play no part. *)
Theorem C5_several_lineage_labels
    markers snp_data sample_id sublin prevlin prevsub st' :
  _get_lineage_detail (position_map_of markers) snp_data initial_reports
    = Ok ((sublin, prevlin, prevsub), st') →
  2 ≤ length prevlin →
  ∃ notes,
    animal_notes (tags_of snp_data) animal_map initial_reports
      = Ok (tt, add_text initial_reports notes)
    ∧ ((∃ l l', l ∈ prevlin ∧ l' ∈ prevlin ∧ l ≠ l') →
       parse_lineage markers snp_data sample_id
       = Ok {| tsv_report := [["Sample ID"; "Lineage"; "Lineage Name"];
                              mixed_row sample_id];
               text_report :=
                 notes ++ text_report st'
                 ++ ["no concordance between predicted lineage and sublineage(s)"] |})
    ∧ (∀ l name,
         (∀ l', l' ∈ prevlin → l' = l) → tribe_map !! l = Some name →
         parse_lineage markers snp_data sample_id
         = Ok {| tsv_report := [["Sample ID"; "Lineage"; "Lineage Name"];
                                [sample_id; l; name]];
                 text_report :=
                   notes ++ text_report st'
                   ++ ["Lineage: " +:+ l +:+ " " +:+ name] |}).
Proof.
  intros Hdetail Hlen.
  apply get_lineage_detail_inv in Hdetail as (_ & Hl & Hs & ->).
  destruct (run_eq (position_map_of markers) snp_data sample_id
              (tags_of snp_data)) as (notes & _ & Hnotes & Hrun).
  exists notes. split; [apply Hnotes|].
  rewrite parse_lineage_eq, Hrun, <- Hl, <- Hs. clear Hrun Hnotes Hl Hs.
  destruct prevlin as [|p [|q rest]]; simpl in Hlen; [lia..|].
  rewrite resolve_multiple. split.
  - intros (l & l' & Hin & Hin' & Hne).
    assert (Hex : existsb (λ lin, negb (String.eqb p lin)) (q :: rest) = true).
    { apply existsb_differs.
      destruct (decide (l = p)) as [->|Hlp].
      - exists l'. split; [|done].
        apply elem_of_cons in Hin' as [->|Hin']; [done|exact Hin'].
      - exists l. split; [|done].
        apply elem_of_cons in Hin as [->|Hin]; [done|exact Hin]. }
    rewrite Hex. unfold add_verdict, add_text, initial_reports. simpl.
    by rewrite <- app_assoc.
  - intros l name Hsame Hname.
    assert (Hex : existsb (λ lin, negb (String.eqb p lin)) (q :: rest) = false).
    { apply not_true_is_false. intros (lin & Hin & Hne)%existsb_differs.
      apply Hne. rewrite (Hsame lin) by (by right).
      symmetry. apply Hsame. by left. }
    rewrite Hex. assert (p = l) as -> by (apply Hsame; by left).
    rewrite (report_prevlin_eq _ _ _ name) by done.
    unfold add_verdict, add_text, initial_reports. simpl.
    by rewrite <- app_assoc.
Qed.

Lemma C5_several_lineage_labels_witness :
  parse_lineage [mk "100" "3" "A"; mk "200" "3" "T"]
                [obs "100" "A"; obs "200" "T"] "S1"
  = Ok {| tsv_report := [["Sample ID"; "Lineage"; "Lineage Name"];
                         ["S1"; "3"; "East-African-Indian"]];
          text_report := ["SNP 100 suggests lineage: 3";
                          "SNP 200 suggests lineage: 3";
                          "Lineage: 3 East-African-Indian"] |}.
Proof.
  destruct (C5_several_lineage_labels
              [mk "100" "3" "A"; mk "200" "3" "T"]
              [obs "100" "A"; obs "200" "T"] "S1" "" ["3"; "3"] []
              (add_text initial_reports ["SNP 100 suggests lineage: 3";
                                         "SNP 200 suggests lineage: 3"]))
    as (notes & Hnotes & _ & Hsame).
  - vm_compute. reflexivity.
  - simpl. lia.
  - vm_compute in Hnotes. injection Hnotes as <-.
    apply (Hsame "3" "East-African-Indian"); [|reflexivity].
    intros l' Hin.
    repeat (apply elem_of_cons in Hin as [->|Hin]; [done|]).
    by apply elem_of_nil in Hin.
Defined.

(** C5, as stated, fails: two markers of the label "8" are matched, so two
    textually identical lineage labels are collected;
    [_check_multiple_discordance] finds no discordance,
    [_report_multiple_prevlin] calls [_report_prevlin], which subscripts
    [tribe_map] with "8", and the run ends with [KeyError]: the verdict is
    neither "mixed lineage(s)" nor a call of the label. *)
Lemma C5_identical_unknown_labels_raise :
  _get_lineage_detail
    (position_map_of [mk "100" "8" "A"; mk "200" "8" "T"])
    [obs "100" "A"; obs "200" "T"] initial_reports
  = Ok (("", ["8"; "8"], []),
        add_text initial_reports ["SNP 100 suggests lineage: 8";
                                  "SNP 200 suggests lineage: 8"])
  ∧ _check_multiple_discordance ["8"; "8"] = Ok false
  ∧ tribe_map !! "8" = None
  ∧ parse_lineage [mk "100" "8" "A"; mk "200" "8" "T"]
      [obs "100" "A"; obs "200" "T"] "S1"
    = Raise KeyError.
Proof. repeat split; vm_compute; reflexivity. Qed.

(** ** Discordance among sublineage labels *)

Lemma discordant_pair_two a0 a1 ar b0 b1 br :
  discordant_pair (a0 :: a1 :: ar) (b0 :: b1 :: br)
  = Ok (negb (String.eqb a0 b0) || negb (String.eqb a1 b1)).
Proof.
  unfold discordant_pair, mbind, result_bind. simpl.
  by destruct (String.eqb a0 b0).
Qed.

Lemma discordant_pair_sym a b : discordant_pair a b = discordant_pair b a.
Proof.
  unfold discordant_pair, mbind, result_bind, index.
  destruct a as [|a0 [|a1 ar]], b as [|b0 [|b1 br]]; simpl; try done;
    rewrite (String.eqb_sym a0 b0); try done.
  by rewrite (String.eqb_sym a1 b1).
Qed.

(** C6 (amended): when no lineage label is collected, [_check_discordance]
    compares a sublineage label with the deepest one on their first two
    components, and the comparison is symmetric: "4.3.1" and "4.3.2" are
    concordant, "4.3.1" and "4.2.1" are discordant, in either order.  When
    one lineage label is collected, [_check_sublin_discordance] compares
    only the top-level component, with the lineage label and with the
    deepest sublineage label, so "4.3.1" and "4.2.1" are concordant beside
    the lineage label "4". *)
Theorem C6_discordance_comparison :
  (∀ a b, discordant_pair a b = discordant_pair b a)
  ∧ (∀ a0 a1 ar b0 b1 br,
       discordant_pair (a0 :: a1 :: ar) (b0 :: b1 :: br)
       = Ok (negb (String.eqb a0 b0) || negb (String.eqb a1 b1)))
  ∧ _check_discordance (deepest ["4.3.1"; "4.3.2"]) ["4.3.1"; "4.3.2"]
    = Ok (false, ["4"; "3"; "1"])
  ∧ _check_discordance (deepest ["4.3.2"; "4.3.1"]) ["4.3.2"; "4.3.1"]
    = Ok (false, ["4"; "3"; "2"])
  ∧ _check_discordance (deepest ["4.3.1"; "4.2.1"]) ["4.3.1"; "4.2.1"]
    = Ok (true, ["4"; "3"; "1"])
  ∧ _check_discordance (deepest ["4.2.1"; "4.3.1"]) ["4.2.1"; "4.3.1"]
    = Ok (true, ["4"; "2"; "1"])
  ∧ (∀ p rest f pieces prevsub,
       _check_sublin_discordance (p :: rest) (f :: pieces) prevsub
       = Ok (existsb (λ sub, negb (String.eqb (top sub) p)
                             || negb (String.eqb (top sub) f)) prevsub))
  ∧ _check_sublin_discordance ["4"]
      (str_split "." (deepest ["4.3.1"; "4.2.1"])) ["4.3.1"; "4.2.1"]
    = Ok false.
Proof.
  split; [apply discordant_pair_sym|].
  split; [apply discordant_pair_two|].
  do 4 (split; [vm_compute; reflexivity|]).
  split; [apply check_sublin_discordance_eq|].
  vm_compute. reflexivity.
Qed.

(** C6, as stated, fails beside a lineage label: with the lineage label "4"
    collected, "4.3.1" and "4.2.1" raise no discordance and the verdict is
    lineage "4". *)
Lemma C6_second_level_ignored_beside_lineage_label :
  _check_sublin_discordance ["4"]
      (str_split "." (deepest ["4.3.1"; "4.2.1"])) ["4.3.1"; "4.2.1"]
    = Ok false
  ∧ parse_lineage
      [mk "100" "4" "A"; mk "200" "4.3.1" "T"; mk "300" "4.2.1" "G"]
      [obs "100" "A"; obs "200" "T"; obs "300" "G"] "S1"
    = Ok {| tsv_report := [["Sample ID"; "Lineage"; "Lineage Name"];
                           ["S1"; "4"; "Euro-American"]];
            text_report := ["SNP 100 suggests lineage: 4";
                            "SNP 200 suggests sub-lineage: 4.3.1";
                            "SNP 300 suggests sub-lineage: 4.2.1";
                            "Lineage: 4 Euro-American"] |}.
Proof. split; vm_compute; reflexivity. Qed.

Example run_sublineages_only_discordant :
  parse_lineage [mk "200" "4.3.1" "T"; mk "300" "4.2.1" "G"]
                [obs "200" "T"; obs "300" "G"] "S1"
  = Ok {| tsv_report := [["Sample ID"; "Lineage"; "Lineage Name"];
                         ["S1"; "mixed lineage(s)"; "mixed lineage(s)"]];
          text_report := ["SNP 200 suggests sub-lineage: 4.3.1";
                          "SNP 300 suggests sub-lineage: 4.2.1";
                          "no precise lineage inferred"] |}.
Proof. vm_compute. reflexivity. Qed.

Example run_sublineages_only_concordant :
  parse_lineage [mk "200" "4.3.1" "T"; mk "300" "4.3.2" "G"]
                [obs "200" "T"; obs "300" "G"] "S1"
  = Ok {| tsv_report := [["Sample ID"; "Lineage"; "Lineage Name"];
                         ["S1"; "4"; "Euro-American"]];
          text_report := ["SNP 200 suggests sub-lineage: 4.3.1";
                          "SNP 300 suggests sub-lineage: 4.3.2";
                          "Lineage: 4 Euro-American"] |}.
Proof. vm_compute. reflexivity. Qed.

(** ** Totality of the dispatch on well-formed labels *)

Lemma known_lineage_name l :
  known_lineage l = true → ∃ name, tribe_map !! l = Some name.
Proof. unfold known_lineage. intros [name ?]%bool_decide_eq_true. eauto. Qed.

Lemma known_sublineage_split sub :
  known_sublineage sub = true →
  ∃ b pieces name,
    str_split "." sub = top sub :: b :: pieces
    ∧ tribe_map !! top sub = Some name.
Proof.
  unfold known_sublineage, top.
  destruct (str_split "." sub) as [|a [|b pieces]]; try done.
  intros [name ?]%known_lineage_name. by exists b, pieces, name.
Qed.

Lemma known_sublineage_true sub :
  known_sublineage sub = true → str_true sub = true.
Proof. by destruct sub. Qed.

Lemma check_discordance_loop_ok f0 f1 fr prevsub :
  Forall (λ sub, known_sublineage sub = true) prevsub →
  ∃ d, _check_discordance_loop (f0 :: f1 :: fr) prevsub = Ok d.
Proof.
  induction 1 as [|sub prevsub Hsub _ [d IH]]; [by exists false|].
  apply known_sublineage_split in Hsub as (b & pieces & _ & Hsplit & _).
  simpl. rewrite Hsplit, discordant_pair_two.
  unfold mbind, result_bind.
  destruct (_ || _); [by exists true | by exists d].
Qed.

Lemma resolve_sublineages_only sid tags prevsub st :
  prevsub ≠ [] → Forall (λ sub, known_sublineage sub = true) prevsub →
  ∃ row lines,
    resolve sid tags (deepest prevsub) [] prevsub st
    = Ok (tt, add_verdict st row lines).
Proof.
  intros Hne Hknown.
  assert (Hdeep : known_sublineage (deepest prevsub) = true).
  { rewrite Forall_forall in Hknown. by apply Hknown, deepest_elem. }
  apply known_sublineage_split in Hdeep as (b & pieces & name & Hsplit & Hname).
  destruct (check_discordance_loop_ok (top (deepest prevsub)) b pieces prevsub)
    as [d Hloop]; [done|].
  unfold resolve, _check_discordance. cbn [list_true negb].
  rewrite Hsplit. unfold mbind, M_bind, lift, result_bind at 1.
  rewrite Hloop. cbn [length Nat.ltb Nat.leb index lookup list_lookup].
  rewrite (report_tribe_eq _ _ _ _ _ _ name) by done.
  destruct (d || animals tags); eauto.
Qed.

(** C3 (amended): on evidence whose lineage labels all have a display name
    and whose sublineage labels all have at least two components, the first
    with a display name, the dispatch returns without raising and appends
    exactly one verdict row, whatever the tags. *)
Theorem C3_dispatch_total_on_known_labels sample_id tags prevlin prevsub st :
  Forall (λ l, known_lineage l = true) prevlin →
  Forall (λ sub, known_sublineage sub = true) prevsub →
  ∃ row lines,
    resolve sample_id tags (deepest prevsub) prevlin prevsub st
    = Ok (tt, add_verdict st row lines).
Proof.
  intros Hlin Hsub.
  destruct prevlin as [|p [|q rest]].
  - destruct (decide (prevsub = [])) as [->|Hne].
    + simpl deepest. rewrite resolve_no_evidence. case_bool_decide.
      * apply report_animals_total.
      * rewrite report_linfour_eq. destruct (animals tags); eauto.
    + by apply resolve_sublineages_only.
  - apply Forall_cons in Hlin as [[name Hname]%known_lineage_name _].
    rewrite (resolve_single _ _ _ _ name); [|by eapply Forall_impl;
      [apply Hsub|apply known_sublineage_true]|done].
    destruct (_ || _); eauto.
  - apply Forall_cons in Hlin as [[name Hname]%known_lineage_name _].
    rewrite resolve_multiple. destruct (existsb _ _); [eauto|].
    rewrite (report_prevlin_eq _ _ _ name) by done. eauto.
Qed.

Lemma C3_dispatch_total_on_known_labels_witness :
  ∃ row lines,
    resolve "S1" {["BOV"]} (deepest ["4.3.1"; "4.2"]) [] ["4.3.1"; "4.2"]
      initial_reports
    = Ok (tt, add_verdict initial_reports row lines).
Proof.
  apply (C3_dispatch_total_on_known_labels "S1" {["BOV"]} []
           ["4.3.1"; "4.2"] initial_reports).
  - constructor.
  - repeat constructor.
Defined.

(** C3, as stated, fails: a lineage label without a display name makes
    [_report_prevlin] raise [KeyError], and a sublineage label without a
    second component makes [_check_discordance] raise [IndexError]; no
    verdict row is appended. *)
Lemma C3_unknown_label_raises :
  resolve "S1" ∅ (deepest []) ["8"] [] initial_reports = Raise KeyError
  ∧ parse_lineage [mk "100" "8" "A"] [obs "100" "A"] "S1" = Raise KeyError
  ∧ resolve "S1" ∅ (deepest ["10"]) [] ["10"] initial_reports
    = Raise IndexError
  ∧ parse_lineage [mk "100" "10" "A"] [obs "100" "A"] "S1" = Raise IndexError.
Proof. repeat split; vm_compute; reflexivity. Qed.

(** ** Independence from the iteration order of the set of positions *)

Lemma tags_from_perm order1 order2 :
  order1 ≡ₚ order2 → tags_from order1 = tags_from order2.
Proof. unfold tags_from. by intros ->. Qed.

(** C10: two runs on the same marker rows, variant rows and sample
    identifier produce the same reports, or end with the same exception,
    whatever order each run iterates the set of observed positions in.  The
    reports depend on the order of the rows of the variant table only. *)
Theorem C10_runs_agree order1 order2 markers snp_data sample_id :
  order1 ≡ₚ elements (snps_of snp_data) →
  order2 ≡ₚ elements (snps_of snp_data) →
  parse_lineage_in order1 markers snp_data sample_id
  = parse_lineage_in order2 markers snp_data sample_id.
Proof.
  intros H1 H2. unfold parse_lineage_in.
  by rewrite (tags_from_perm order1 order2) by (by rewrite H1, H2).
Qed.

Lemma C10_runs_agree_witness :
  parse_lineage_in ["100"; "8624"; "931123"]
    [mk "100" "3" "A"] [obs "8624" "C"; obs "100" "A"; obs "931123" "T"] "S1"
  = parse_lineage_in ["931123"; "100"; "8624"]
    [mk "100" "3" "A"] [obs "8624" "C"; obs "100" "A"; obs "931123" "T"] "S1".
Proof.
  apply C10_runs_agree.
  - vm_compute.
    apply perm_trans with ["100"; "931123"; "8624"];
      [apply perm_skip, perm_swap | apply perm_swap].
  - vm_compute. reflexivity.
Defined.

(** ** The marker mapping *)

Lemma position_map_of_snoc markers m :
  position_map_of (markers ++ [m])
  = <[Position m := m]> (position_map_of markers).
Proof. unfold position_map_of. by rewrite foldl_snoc. Qed.

Lemma position_map_of_lookup markers pos :
  position_map_of markers !! pos
  = last (filter (λ m, Position m = pos) markers).
Proof.
  induction markers as [|m markers IH] using rev_ind; [done|].
  rewrite position_map_of_snoc, filter_app, lookup_insert.
  case_decide as Hpos.
  - rewrite filter_cons_True, filter_nil by done. by rewrite last_snoc.
  - rewrite filter_cons_False, filter_nil by done. by rewrite app_nil_r.
Qed.

(** X1: the marker mapping answers a position with the last marker row of
    that position, and with nothing when no row has it: a repeated position
    keeps only its last row. *)
Theorem position_map_last_row_wins markers pos :
  position_map_of markers !! pos
  = last (filter (λ m, Position m = pos) markers)
  ∧ (position_map_of markers !! pos = None
     ↔ pos ∉ Position <$> markers)
  ∧ ∀ m, position_map_of (markers ++ [m]) !! Position m = Some m.
Proof.
  split; [apply position_map_of_lookup|]. split.
  - rewrite position_map_of_lookup, last_None. split.
    + intros Hnil (m & -> & Hin)%list_elem_of_fmap.
      assert (m ∈ filter (λ m', Position m' = Position m) markers) as Hm
        by (by apply list_elem_of_filter).
      rewrite Hnil in Hm. by apply elem_of_nil in Hm.
    + intros Hnot.
      destruct (filter _ markers) as [|m l] eqn:Hfilter; [done|]. exfalso.
      assert (m ∈ filter (λ m', Position m' = pos) markers) as Hm
        by (rewrite Hfilter; left).
      apply list_elem_of_filter in Hm as [<- Hin].
      apply Hnot, list_elem_of_fmap. eauto.
  - intros m. by rewrite position_map_of_snoc, lookup_insert_eq.
Qed.

(** ** The deepest sublineage label *)

Lemma foldl_longer_first x xs :
  ∃ pre post,
    x :: xs = pre ++ foldl longer x xs :: post
    ∧ Forall (λ y, String.length y < String.length (foldl longer x xs)) pre
    ∧ Forall (λ y, String.length y ≤ String.length (foldl longer x xs)) post.
Proof.
  induction xs as [|y xs IH] using rev_ind.
  - exists [], []. by repeat split.
  - destruct IH as (pre & post & Heq & Hpre & Hpost).
    rewrite foldl_snoc. unfold longer at 1 3 5.
    destruct (_ <? _)%nat eqn:Hlt.
    + apply Nat.ltb_lt in Hlt. exists (x :: xs), []. split; [done|].
      split; [|done]. rewrite Heq. apply Forall_app. split.
      * eapply Forall_impl; [exact Hpre|]. simpl. lia.
      * constructor; [done|]. eapply Forall_impl; [exact Hpost|]. simpl. lia.
    + apply Nat.ltb_ge in Hlt. exists pre, (post ++ [y]).
      split; [by rewrite app_comm_cons, Heq, <- app_assoc|].
      split; [done|]. apply Forall_app. split; [done|]. by constructor.
Qed.

(** X2: the candidate [sublin] that the evidence loop returns is empty when
    no sublineage label was collected; otherwise it is one of the collected
    sublineage labels, no collected label is longer, and every label
    collected before it is strictly shorter: the first of the longest. *)
Theorem sublin_is_first_longest pm rows st sublin prevlin prevsub st' :
  _get_lineage_detail pm rows st = Ok ((sublin, prevlin, prevsub), st') →
  (prevsub = [] ∧ sublin = "")
  ∨ ∃ pre post,
      prevsub = pre ++ sublin :: post
      ∧ Forall (λ y, String.length y < String.length sublin) pre
      ∧ Forall (λ y, String.length y ≤ String.length sublin) post.
Proof.
  intros (-> & _ & _ & _)%get_lineage_detail_inv.
  destruct prevsub as [|x xs]; [by left|]. right.
  apply foldl_longer_first.
Qed.

Lemma sublin_is_first_longest_witness :
  (["4.3"; "4.3.4.2"; "4.3.4.1"] = [] ∧ "4.3.4.2" = "")
  ∨ ∃ pre post,
      ["4.3"; "4.3.4.2"; "4.3.4.1"] = pre ++ "4.3.4.2" :: post
      ∧ Forall (λ y, String.length y < String.length "4.3.4.2") pre
      ∧ Forall (λ y, String.length y ≤ String.length "4.3.4.2") post.
Proof.
  apply (sublin_is_first_longest
           (position_map_of [mk "1" "4.3" "A"; mk "2" "4.3.4.2" "A";
                             mk "3" "4.3.4.1" "A"])
           [obs "1" "A"; obs "2" "A"; obs "3" "A"] initial_reports
           "4.3.4.2" [] ["4.3"; "4.3.4.2"; "4.3.4.1"]
           (add_text initial_reports
              ["SNP 1 suggests sub-lineage: 4.3";
               "SNP 2 suggests sub-lineage: 4.3.4.2";
               "SNP 3 suggests sub-lineage: 4.3.4.1"])).
  vm_compute. reflexivity.
Defined.

(** ** Every way a run can end *)

Lemma report_prevlin_cases sid p rest st :
  _report_prevlin sid (p :: rest) st
  = match tribe_map !! p with
    | Some name =>
        Ok (tt, add_verdict st (verdict_row sid (Tribe p name))
                  (verdict_lines (Tribe p name)))
    | None => Raise KeyError
    end.
Proof.
  destruct (tribe_map !! p) as [name|] eqn:Hname.
  - by apply report_prevlin_eq.
  - unfold _report_prevlin, mbind, M_bind, lift, getitem. simpl.
    by rewrite Hname.
Qed.

Lemma report_tribe_cases sid tags d f pieces tribe st :
  _report_tribe sid tags d (f :: pieces) tribe st
  = if d || animals tags
    then Ok (tt, add_verdict st (verdict_row sid MixedImprecise)
                   (verdict_lines MixedImprecise))
    else match tribe_map !! tribe with
         | Some name =>
             Ok (tt, add_verdict st [sid; f; name]
                       ["Lineage: " +:+ tribe +:+ " " +:+ name])
         | None => Raise KeyError
         end.
Proof.
  destruct (tribe_map !! tribe) as [name|] eqn:Hname.
  - rewrite (report_tribe_eq _ _ _ _ _ _ name) by done.
    by destruct (d || animals tags).
  - unfold _report_tribe. destruct (d || animals tags); [done|].
    unfold mbind, M_bind, lift, getitem. by rewrite Hname.
Qed.

Lemma report_linfour_cases sid tags st :
  _report_linfour sid tags st
  = Ok (tt, if animals tags
            then add_verdict st (verdict_row sid MixedImprecise)
                   (verdict_lines MixedImprecise)
            else add_verdict st
                   (verdict_row sid (LineageFour (bool_decide ("hrv37" ∈ tags))))
                   (verdict_lines (LineageFour (bool_decide ("hrv37" ∈ tags))))).
Proof. apply report_linfour_eq. Qed.

(** [_report_animals] takes the first tag present, in the order of
    [animal_map]. *)
Lemma report_animals_cases sid tags st :
  _report_animals sid tags st
  = Ok (tt,
        let v :=
          if bool_decide ("BCG" ∈ tags) then Animal "Bovis-BCG" "M. bovis-BCG"
          else if bool_decide ("BOV" ∈ tags) then Animal "Bovis" "M. bovis"
          else if bool_decide ("ORYX" ∈ tags) then Animal "Oryx" "M. orygis"
          else if bool_decide ("CAP" ∈ tags) then Animal "Caprae" "M. caprae"
          else NoInformative in
        add_verdict st (verdict_row sid v) (verdict_lines v)).
Proof.
  unfold _report_animals, animal_map. simpl.
  repeat (case_bool_decide; [reflexivity|]). reflexivity.
Qed.

Lemma report_animals_valid sid tags st :
  ∃ v, verdict_valid v
       ∧ _report_animals sid tags st
         = Ok (tt, add_verdict st (verdict_row sid v) (verdict_lines v)).
Proof.
  rewrite report_animals_cases. eexists. split; [|reflexivity].
  case_bool_decide; [exists "BCG"; apply list_elem_of_In; simpl; tauto|].
  case_bool_decide; [exists "BOV"; apply list_elem_of_In; simpl; tauto|].
  case_bool_decide; [exists "ORYX"; apply list_elem_of_In; simpl; tauto|].
  case_bool_decide; [exists "CAP"; apply list_elem_of_In; simpl; tauto|].
  done.
Qed.

Lemma discordant_pair_cases a b :
  (∃ d, discordant_pair a b = Ok d)
  ∨ (discordant_pair a b = Raise IndexError ∧ (length a < 2 ∨ length b < 2)).
Proof.
  unfold discordant_pair, mbind, result_bind, index.
  destruct a as [|a0 [|a1 ar]], b as [|b0 [|b1 br]]; simpl;
    try destruct (String.eqb a0 b0); simpl;
    first [ left; eexists; reflexivity
          | right; split; [reflexivity | lia] ].
Qed.

Lemma check_discordance_loop_cases sf prevsub :
  (∃ d, _check_discordance_loop sf prevsub = Ok d)
  ∨ (_check_discordance_loop sf prevsub = Raise IndexError
     ∧ (length sf < 2
        ∨ ∃ sub, sub ∈ prevsub ∧ length (str_split "." sub) < 2)).
Proof.
  induction prevsub as [|sub prevsub IH]; [left; by exists false|].
  simpl.
  destruct (discordant_pair_cases (str_split "." sub) sf)
    as [[d ->]|[-> Hshort]]; unfold mbind, result_bind.
  - destruct d; [left; by exists true|].
    destruct IH as [?|[-> [?|(sub' & ? & ?)]]]; [by left|right..].
    + split; [done|by left].
    + split; [done|]. right. exists sub'. split; [by right|done].
  - right. split; [done|]. destruct Hshort; [|by left].
    right. exists sub. split; [by left|done].
Qed.

Lemma deepest_nil_split prevsub b pieces :
  str_split "." (deepest prevsub) = top (deepest prevsub) :: b :: pieces →
  prevsub ≠ [].
Proof. by intros Hsplit ->. Qed.

Lemma existsb_false_elem {A} (f : A → bool) l x :
  existsb f l = false → x ∈ l → f x = false.
Proof.
  intros Hex Hin. apply not_true_is_false. intros Hfx.
  assert (existsb f l = true) as Hex'
    by (apply existsb_exists; exists x; split; [by apply list_elem_of_In|done]).
  congruence.
Qed.

(** The dispatch without a lineage label, and with exactly one. *)
Lemma resolve_none sid tags prevsub st :
  resolve sid tags (deepest prevsub) [] prevsub st
  = match _check_discordance_loop (str_split "." (deepest prevsub)) prevsub with
    | Raise e => Raise e
    | Ok d =>
        match str_split "." (deepest prevsub) with
        | f :: _ :: _ =>
            _report_tribe sid tags d (str_split "." (deepest prevsub)) f st
        | _ =>
            if bool_decide ("linfour" ∈ tags) then _report_animals sid tags st
            else _report_linfour sid tags st
        end
    end.
Proof.
  unfold resolve, _check_discordance. cbn [list_true negb].
  unfold mbind, M_bind, lift, result_bind.
  destruct (_check_discordance_loop _ prevsub) as [d|e]; [|done].
  destruct (str_split "." (deepest prevsub)) as [|f [|b pieces]];
    cbn [length Nat.ltb Nat.leb index lookup list_lookup];
    [by case_bool_decide..|done].
Qed.

Lemma resolve_one sid tags p prevsub st :
  resolve sid tags (deepest prevsub) [p] prevsub st
  = if str_true (deepest prevsub)
    then _report_tribe sid tags
           (existsb (λ sub, negb (String.eqb (top sub) p)
                            || negb (String.eqb (top sub) (top (deepest prevsub))))
              prevsub)
           (str_split "." (deepest prevsub)) p st
    else _report_prevlin sid [p] st.
Proof.
  unfold resolve. cbn [list_true negb length Nat.eqb].
  destruct (str_true (deepest prevsub)) eqn:Htrue; [|done].
  assert (prevsub ≠ []) as Hne by (intros ->; discriminate).
  rewrite (list_true_ne prevsub), andb_true_l by done.
  destruct (str_split_top (deepest prevsub)) as [pieces Hsplit].
  rewrite Hsplit, check_sublin_discordance_eq.
  unfold mbind, M_bind, lift. reflexivity.
Qed.

Lemma resolve_outcome sid tags prevlin prevsub st :
  (∃ v, verdict_valid v
        ∧ resolve sid tags (deepest prevsub) prevlin prevsub st
          = Ok (tt, add_verdict st (verdict_row sid v) (verdict_lines v)))
  ∨ (resolve sid tags (deepest prevsub) prevlin prevsub st = Raise KeyError
     ∧ ∃ k, (k ∈ prevlin ∨ k ∈ top <$> prevsub) ∧ tribe_map !! k = None)
  ∨ (resolve sid tags (deepest prevsub) prevlin prevsub st = Raise IndexError
     ∧ prevlin = []
     ∧ ∃ sub, sub ∈ prevsub ∧ length (str_split "." sub) < 2).
Proof.
  destruct prevlin as [|p [|q rest]].
  - rewrite resolve_none.
    destruct (check_discordance_loop_cases
                (str_split "." (deepest prevsub)) prevsub)
      as [[d Hloop]|[Hloop Hshort]]; rewrite Hloop.
    + destruct (str_split_top (deepest prevsub)) as [pieces Hsplit].
      rewrite Hsplit. destruct pieces as [|b pieces].
      * left. case_bool_decide.
        -- apply report_animals_valid.
        -- rewrite report_linfour_cases.
           destruct (animals tags);
             [exists MixedImprecise
             |exists (LineageFour (bool_decide ("hrv37" ∈ tags)))];
             (split; [done|reflexivity]).
      * rewrite report_tribe_cases.
        destruct (d || animals tags);
          [left; exists MixedImprecise; split; [done|reflexivity]|].
        destruct (tribe_map !! top (deepest prevsub)) as [name|] eqn:Hname.
        -- left. exists (Tribe (top (deepest prevsub)) name).
           split; [done|reflexivity].
        -- right; left. split; [done|].
           exists (top (deepest prevsub)). split; [|done]. right.
           apply list_elem_of_fmap. eexists. split; [done|].
           eapply deepest_elem, deepest_nil_split, Hsplit.
    + right; right. split; [done|]. split; [done|].
      destruct Hshort as [Hsf|?]; [|done].
      exists (deepest prevsub). split; [|done]. apply deepest_elem.
      intros ->. simpl in Hloop. discriminate.
  - rewrite resolve_one. destruct (str_true (deepest prevsub)) eqn:Htrue.
    + assert (prevsub ≠ []) as Hne by (intros ->; discriminate).
      destruct (str_split_top (deepest prevsub)) as [pieces Hsplit].
      rewrite Hsplit, report_tribe_cases.
      destruct (existsb _ prevsub) eqn:Hd;
        [left; exists MixedImprecise; split; [done|reflexivity]|].
      cbn [orb]. destruct (animals tags);
        [left; exists MixedImprecise; split; [done|reflexivity]|].
      destruct (tribe_map !! p) as [name|] eqn:Hname.
      * left. exists (Tribe p name). split; [done|].
        apply (existsb_false_elem _ _ (deepest prevsub)) in Hd;
          [|by apply deepest_elem].
        apply orb_false_elim in Hd as [Htop%negb_false_iff%String.eqb_eq _].
        rewrite Htop. reflexivity.
      * right; left. split; [done|]. exists p. split; [left; by left|done].
    + rewrite report_prevlin_cases.
      destruct (tribe_map !! p) as [name|] eqn:Hname.
      * left. exists (Tribe p name). split; [done|reflexivity].
      * right; left. split; [done|]. exists p. split; [left; by left|done].
  - rewrite resolve_multiple.
    destruct (existsb _ _);
      [left; exists MixedNoConcordance; split; [done|reflexivity]|].
    rewrite report_prevlin_cases.
    destruct (tribe_map !! p) as [name|] eqn:Hname.
    + left. exists (Tribe p name). split; [done|reflexivity].
    + right; left. split; [done|]. exists p. split; [left; by left|done].
Qed.

Lemma parse_lineage_outcome markers rows sid :
  let pm := position_map_of markers in
  ∃ notes,
    animal_notes (tags_of rows) animal_map initial_reports
      = Ok (tt, add_text initial_reports notes)
    ∧ ((∃ v, verdict_valid v
             ∧ parse_lineage markers rows sid
               = Ok (add_verdict
                       (add_text initial_reports (notes ++ detail_lines pm rows))
                       (verdict_row sid v) (verdict_lines v)))
       ∨ (parse_lineage markers rows sid = Raise KeyError
          ∧ ∃ k, (k ∈ lins pm rows ∨ k ∈ top <$> subs pm rows)
                 ∧ tribe_map !! k = None)
       ∨ (parse_lineage markers rows sid = Raise IndexError
          ∧ lins pm rows = []
          ∧ ∃ sub, sub ∈ subs pm rows ∧ length (str_split "." sub) < 2)).
Proof.
  intros pm.
  destruct (run_eq pm rows sid (tags_of rows)) as (notes & _ & Hnotes & Hrun).
  exists notes. split; [apply Hnotes|].
  rewrite parse_lineage_eq. fold pm. rewrite Hrun.
  destruct (resolve_outcome sid (tags_of rows) (lins pm rows) (subs pm rows)
              (add_text initial_reports (notes ++ detail_lines pm rows)))
    as [(v & Hv & ->)|[[-> Hkey]|[-> Hindex]]].
  - left. by exists v.
  - right; left. by split.
  - right; right. by split.
Qed.

(** X3: a run that returns has written the header and exactly one verdict
    row, which starts with the sample identifier and is one of: a key of
    the display-name table with its own display name, "mixed lineage(s)",
    lineage "4" by absence, an entry of the animal table, or "No
    Informative SNPs detected".  Its narrative log is the animal notes,
    then the lines of the evidence loop in row order, then the lines of that
    verdict. *)
Theorem run_writes_one_valid_verdict markers snp_data sample_id st :
  parse_lineage markers snp_data sample_id = Ok st →
  ∃ v notes evidence lines,
    verdict_valid v
    ∧ animal_notes (tags_of snp_data) animal_map initial_reports
      = Ok (tt, add_text initial_reports notes)
    ∧ _get_lineage_detail (position_map_of markers) snp_data initial_reports
      = Ok (evidence, add_text initial_reports lines)
    ∧ st = {| tsv_report := [["Sample ID"; "Lineage"; "Lineage Name"];
                             verdict_row sample_id v];
              text_report := notes ++ lines ++ verdict_lines v |}.
Proof.
  intros Hrun.
  destruct (parse_lineage_outcome markers snp_data sample_id)
    as (notes & Hnotes & [(v & Hv & Hok)|[[Hraise _]|[Hraise _]]]);
    [|congruence..].
  exists v, notes. eexists _, _. split; [done|]. split; [done|].
  split; [apply get_lineage_detail_eq'|].
  rewrite Hrun in Hok. injection Hok as ->.
  unfold add_verdict, add_text, initial_reports. simpl.
  by rewrite <- app_assoc.
Qed.

Lemma run_writes_one_valid_verdict_witness :
  ∃ v notes evidence lines,
    verdict_valid v
    ∧ animal_notes (tags_of [obs "8624" "C"; obs "200" "T"]) animal_map
        initial_reports
      = Ok (tt, add_text initial_reports notes)
    ∧ _get_lineage_detail (position_map_of [mk "200" "2.2.1" "T"])
        [obs "8624" "C"; obs "200" "T"] initial_reports
      = Ok (evidence, add_text initial_reports lines)
    ∧ {| tsv_report := [["Sample ID"; "Lineage"; "Lineage Name"];
                        ["S1"; "mixed lineage(s)"; "mixed lineage(s)"]];
         text_report := ["SNP 8624 suggests M. bovis-BCG";
                         "SNP 200 suggests sub-lineage: 2.2.1";
                         "no precise lineage inferred"] |}
      = {| tsv_report := [["Sample ID"; "Lineage"; "Lineage Name"];
                          verdict_row "S1" v];
           text_report := notes ++ lines ++ verdict_lines v |}.
Proof.
  apply (run_writes_one_valid_verdict [mk "200" "2.2.1" "T"]
           [obs "8624" "C"; obs "200" "T"] "S1").
  vm_compute. reflexivity.
Defined.

(** X4: on two loaded tables whose rows all hold a string in every column
    the script reads, the run from the evidence loop to the verdict ends
    with an exception only because of a collected label.  [KeyError] means
    that a collected lineage label, or the top-level component of a
    collected sublineage label, is not a key of the display-name table.
    [IndexError] means that no lineage label was collected and some
    collected sublineage label has no second component.  No such run ends
    with [ValueError]: [max] is never called on an empty list.  Nothing is
    said of a table with a short row, on which the evidence loop can raise
    [TypeError] with no label at fault, nor of opening, reading and writing
    the files. *)
Theorem run_raises_only_on_bad_label
    markers snp_data sample_id sublin prevlin prevsub st' e :
  _get_lineage_detail (position_map_of markers) snp_data initial_reports
    = Ok ((sublin, prevlin, prevsub), st') →
  parse_lineage markers snp_data sample_id = Raise e →
  (e = KeyError
   ∧ ∃ k, (k ∈ prevlin ∨ k ∈ top <$> prevsub) ∧ tribe_map !! k = None)
  ∨ (e = IndexError
     ∧ prevlin = []
     ∧ ∃ sub, sub ∈ prevsub ∧ length (str_split "." sub) < 2).
Proof.
  intros (_ & -> & -> & _)%get_lineage_detail_inv Hraise.
  destruct (parse_lineage_outcome markers snp_data sample_id)
    as (notes & _ & [(v & _ & Hok)|[[Hkey ?]|[Hindex ?]]]).
  - congruence.
  - left. split; [congruence|done].
  - right. split; [congruence|done].
Qed.

Lemma run_raises_only_on_bad_label_witness :
  (IndexError = KeyError
   ∧ ∃ k, (k ∈ [] ∨ k ∈ top <$> ["40.1"; "40"]) ∧ tribe_map !! k = None)
  ∨ (IndexError = IndexError
     ∧ @nil string = []
     ∧ ∃ sub, sub ∈ ["40.1"; "40"] ∧ length (str_split "." sub) < 2).
Proof.
  apply (run_raises_only_on_bad_label
           [mk "100" "40.1" "A"; mk "200" "40" "T"]
           [obs "100" "A"; obs "200" "T"] "S1" "40.1" [] ["40.1"; "40"]
           (add_text initial_reports ["SNP 100 suggests sub-lineage: 40.1";
                                      "SNP 200 suggests sub-lineage: 40"])).
  - vm_compute. reflexivity.
  - vm_compute. reflexivity.
Defined.

(** ** Tags and observed positions *)

Lemma tag_observed rows pos tag :
  (pos, tag) ∈ snp_tags_items →
  tag ∈ tags_of rows ↔ pos ∈ POS <$> rows.
Proof.
  intros Hitem. rewrite elem_of_tags_of. split.
  - intros (pos' & Hin & Ht). apply snp_tags_inv in Ht.
    assert (pos' = pos) as <-; [|done].
    unfold snp_tags_items in *.
    repeat (apply elem_of_cons in Hitem as [[= -> ->]|Hitem];
            [repeat (apply elem_of_cons in Ht as [[= ->]|Ht]; try done);
             by apply elem_of_nil in Ht|]).
    by apply elem_of_nil in Hitem.
  - intros Hin. exists pos. split; [done|].
    unfold snp_tags_items in Hitem.
    repeat (apply elem_of_cons in Hitem as [[= -> ->]|Hitem]; [done|]).
    by apply elem_of_nil in Hitem.
Qed.

Lemma tag_observed_decide rows pos tag :
  (pos, tag) ∈ snp_tags_items →
  bool_decide (tag ∈ tags_of rows) = bool_decide (pos ∈ POS <$> rows).
Proof. intros Hitem. apply bool_decide_ext. by apply tag_observed. Qed.

Lemma snp_tags_item pos tag :
  In (pos, tag) snp_tags_items → (pos, tag) ∈ snp_tags_items.
Proof. apply list_elem_of_In. Qed.

Lemma BCG_observed rows :
  bool_decide ("BCG" ∈ tags_of rows) = bool_decide ("8624" ∈ POS <$> rows).
Proof. apply tag_observed_decide, snp_tags_item. simpl. tauto. Qed.

Lemma BOV_observed rows :
  bool_decide ("BOV" ∈ tags_of rows) = bool_decide ("2289073" ∈ POS <$> rows).
Proof. apply tag_observed_decide, snp_tags_item. simpl. tauto. Qed.

Lemma ORYX_observed rows :
  bool_decide ("ORYX" ∈ tags_of rows) = bool_decide ("2726378" ∈ POS <$> rows).
Proof. apply tag_observed_decide, snp_tags_item. simpl. tauto. Qed.

Lemma CAP_observed rows :
  bool_decide ("CAP" ∈ tags_of rows) = bool_decide ("2831482" ∈ POS <$> rows).
Proof. apply tag_observed_decide, snp_tags_item. simpl. tauto. Qed.

Lemma animals_observed rows :
  animals (tags_of rows)
  = existsb (λ pos, bool_decide (pos ∈ POS <$> rows))
      ["8624"; "2289073"; "2726378"; "2831482"].
Proof.
  unfold animals, animal_map. simpl.
  by rewrite BCG_observed, BOV_observed, ORYX_observed, CAP_observed.
Qed.

Lemma animal_notes_observed rows st :
  animal_notes (tags_of rows) animal_map st
  = Ok (tt, add_text st (animal_note_lines rows)).
Proof.
  assert (Hstep : ∀ st (b : bool) pos species (k : M unit),
    ((if b then pos' ← lift (Ok pos);
                text_append ("SNP " +:+ pos' +:+ " suggests " +:+ species)
      else mret tt);; k) st
    = k (add_text st (if b then ["SNP " +:+ pos +:+ " suggests " +:+ species]
                      else []))).
  { intros st0 [] pos species k; unfold mbind, M_bind; simpl.
    - reflexivity.
    - by rewrite add_text_nil. }
  unfold animal_map, animal_notes.
  change (getitem tag_snps "BCG") with (@Ok string "8624").
  change (getitem tag_snps "BOV") with (@Ok string "2289073").
  change (getitem tag_snps "ORYX") with (@Ok string "2726378").
  change (getitem tag_snps "CAP") with (@Ok string "2831482").
  rewrite !Hstep. unfold mret, M_ret. rewrite !add_text_app.
  rewrite BCG_observed, BOV_observed, ORYX_observed, CAP_observed.
  reflexivity.
Qed.

(** X5: the animal notes and the animal flag follow the observed positions
    alone.  For 8624, 2289073, 2726378 and 2831482, in this order, the note
    "SNP <position> suggests <species>" is written exactly when the position
    occurs in the variant table, whatever its allele and whatever the marker
    table holds; the flag [animals] is raised exactly when one of the four
    occurs. *)
Theorem animal_notes_follow_positions snp_data st :
  animal_notes (tags_of snp_data) animal_map st
    = Ok (tt, add_text st (animal_note_lines snp_data))
  ∧ (animals (tags_of snp_data) = true
     ↔ ∃ pos, pos ∈ ["8624"; "2289073"; "2726378"; "2831482"]
              ∧ pos ∈ POS <$> snp_data).
Proof.
  split; [apply animal_notes_observed|].
  rewrite animals_observed, existsb_exists. split.
  - intros (pos & Hin & Hobs%bool_decide_eq_true).
    exists pos. split; [by apply list_elem_of_In|done].
  - intros (pos & Hin & Hobs). exists pos.
    split; [by apply list_elem_of_In|by apply bool_decide_eq_true].
Qed.

(** ** Runs by the shape of the evidence *)

Lemma parse_lineage_resolve markers rows sid :
  let pm := position_map_of markers in
  parse_lineage markers rows sid
  = match resolve sid (tags_of rows) (deepest (subs pm rows)) (lins pm rows)
            (subs pm rows)
            (add_text initial_reports
               (animal_note_lines rows ++ detail_lines pm rows)) with
    | Ok (_, st) => Ok st
    | Raise e => Raise e
    end.
Proof.
  intros pm. rewrite parse_lineage_eq. fold pm.
  unfold run, mbind, M_bind.
  rewrite animal_notes_observed, get_lineage_detail_eq'.
  by rewrite add_text_app.
Qed.

Lemma final_reports_eq notes lines row closing :
  add_verdict (add_text initial_reports (notes ++ lines)) row closing
  = {| tsv_report := [["Sample ID"; "Lineage"; "Lineage Name"]; row];
       text_report := notes ++ lines ++ closing |}.
Proof.
  unfold add_verdict, add_text, initial_reports. simpl.
  by rewrite <- app_assoc.
Qed.

Lemma first_animal_tags rows :
  (if bool_decide ("BCG" ∈ tags_of rows) then Animal "Bovis-BCG" "M. bovis-BCG"
   else if bool_decide ("BOV" ∈ tags_of rows) then Animal "Bovis" "M. bovis"
   else if bool_decide ("ORYX" ∈ tags_of rows) then Animal "Oryx" "M. orygis"
   else if bool_decide ("CAP" ∈ tags_of rows) then Animal "Caprae" "M. caprae"
   else NoInformative)
  = first_animal rows.
Proof.
  unfold first_animal.
  by rewrite BCG_observed, BOV_observed, ORYX_observed, CAP_observed.
Qed.

Lemma first_animal_is_animal rows :
  animals (tags_of rows) = true →
  ∃ short_species species, first_animal rows = Animal short_species species.
Proof.
  rewrite animals_observed. unfold first_animal. simpl.
  repeat (case_bool_decide; [eauto|]). done.
Qed.

(** X6: when no evidence is collected and an animal position is observed,
    the verdict depends on position 931123.  If it is not observed, the
    verdict is "mixed lineage(s)".  If it is observed, the verdict is the
    animal strain of the first observed position among 8624 (BCG), 2289073
    (bovis), 2726378 (orygis) and 2831482 (caprae), in this order.  The
    log is the animal notes followed by the lines of the verdict. *)
Theorem no_evidence_with_animal_tag markers snp_data sample_id sublin st' :
  _get_lineage_detail (position_map_of markers) snp_data initial_reports
    = Ok ((sublin, [], []), st') →
  animals (tags_of snp_data) = true →
  (∃ short_species species,
     first_animal snp_data = Animal short_species species)
  ∧ parse_lineage markers snp_data sample_id
    = Ok (let v := if bool_decide ("931123" ∈ POS <$> snp_data)
                   then first_animal snp_data
                   else MixedImprecise in
          {| tsv_report := [["Sample ID"; "Lineage"; "Lineage Name"];
                            verdict_row sample_id v];
             text_report := animal_note_lines snp_data ++ verdict_lines v |}).
Proof.
  intros (_ & Hl & Hs & _)%get_lineage_detail_inv Han.
  split; [by apply first_animal_is_animal|].
  rewrite parse_lineage_resolve, <- Hl, <- Hs, no_evidence_no_lines by done.
  simpl deepest. rewrite resolve_no_evidence.
  rewrite (bool_decide_ext _ _ (linfour_observed snp_data)).
  case_bool_decide.
  - rewrite report_animals_cases. cbv zeta. rewrite first_animal_tags.
    by rewrite final_reports_eq.
  - rewrite report_linfour_cases, Han. by rewrite final_reports_eq.
Qed.

Lemma no_evidence_with_animal_tag_witness :
  (∃ short_species species,
     first_animal [obs "2831482" "A"; obs "931123" "C"; obs "2289073" "G"]
     = Animal short_species species)
  ∧ parse_lineage [mk "100" "2" "T"]
      [obs "2831482" "A"; obs "931123" "C"; obs "2289073" "G"] "S1"
    = Ok {| tsv_report := [["Sample ID"; "Lineage"; "Lineage Name"];
                           ["S1"; "Bovis"; "M. bovis"]];
            text_report := ["SNP 2289073 suggests M. bovis";
                            "SNP 2831482 suggests M. caprae";
                            "Lineage: Bovis"] |}.
Proof.
  apply (no_evidence_with_animal_tag [mk "100" "2" "T"]
           [obs "2831482" "A"; obs "931123" "C"; obs "2289073" "G"] "S1"
           "" initial_reports).
  - vm_compute. reflexivity.
  - vm_compute. reflexivity.
Defined.

Lemma two_components sub :
  2 ≤ length (str_split "." sub) →
  ∃ pieces, str_split "." sub = top sub :: second sub :: pieces.
Proof.
  unfold top, second.
  destruct (str_split "." sub) as [|a [|b pieces]]; simpl; [lia..|eauto].
Qed.

Lemma check_discordance_loop_two deep prevsub :
  2 ≤ length (str_split "." deep) →
  Forall (λ sub, 2 ≤ length (str_split "." sub)) prevsub →
  _check_discordance_loop (str_split "." deep) prevsub
  = Ok (existsb (λ sub, negb (String.eqb (top sub) (top deep))
                        || negb (String.eqb (second sub) (second deep)))
          prevsub).
Proof.
  intros [fr Hdeep]%two_components. rewrite Hdeep.
  induction 1 as [|sub prevsub [pieces Hsub]%two_components _ IH]; [done|].
  simpl. rewrite Hsub, discordant_pair_two, IH.
  unfold mbind, result_bind. by destruct (_ || _).
Qed.

(** X7: when no lineage label is collected and every collected sublineage
    label has at least two components, the run compares each label with the
    deepest one on the first two components.  If one differs, or an animal
    position is observed, the verdict is "mixed lineage(s)"; otherwise it is
    the top-level component of the deepest label with its display name, and
    [KeyError] if that component has none. *)
Theorem sublineages_only markers snp_data sample_id sublin prevsub st' :
  _get_lineage_detail (position_map_of markers) snp_data initial_reports
    = Ok ((sublin, [], prevsub), st') →
  prevsub ≠ [] →
  Forall (λ sub, 2 ≤ length (str_split "." sub)) prevsub →
  parse_lineage markers snp_data sample_id
  = if existsb (λ sub, negb (String.eqb (top sub) (top sublin))
                       || negb (String.eqb (second sub) (second sublin)))
         prevsub
       || animals (tags_of snp_data)
    then Ok {| tsv_report := [["Sample ID"; "Lineage"; "Lineage Name"];
                              mixed_row sample_id];
               text_report := animal_note_lines snp_data ++ text_report st'
                              ++ ["no precise lineage inferred"] |}
    else match tribe_map !! top sublin with
         | Some name =>
             Ok {| tsv_report := [["Sample ID"; "Lineage"; "Lineage Name"];
                                  [sample_id; top sublin; name]];
                   text_report :=
                     animal_note_lines snp_data ++ text_report st'
                     ++ ["Lineage: " +:+ top sublin +:+ " " +:+ name] |}
         | None => Raise KeyError
         end.
Proof.
  intros (-> & Hl & -> & ->)%get_lineage_detail_inv Hne Htwo.
  set (pm := position_map_of markers) in *.
  assert (Hdeep : 2 ≤ length (str_split "." (deepest (subs pm snp_data)))).
  { rewrite Forall_forall in Htwo. by apply Htwo, deepest_elem. }
  rewrite parse_lineage_resolve. fold pm. rewrite <- Hl, resolve_none.
  rewrite check_discordance_loop_two by done.
  destruct (two_components _ Hdeep) as [pieces Hsplit].
  rewrite Hsplit, report_tribe_cases. simpl text_report.
  destruct (_ || animals _); [by rewrite final_reports_eq|].
  destruct (tribe_map !! _); [by rewrite final_reports_eq|done].
Qed.

Lemma sublineages_only_witness :
  parse_lineage [mk "100" "2.2.1" "A"; mk "200" "2.2" "T"]
                [obs "200" "T"; obs "100" "A"] "S1"
  = Ok {| tsv_report := [["Sample ID"; "Lineage"; "Lineage Name"];
                         ["S1"; "2"; "East-Asian"]];
          text_report := ["SNP 200 suggests sub-lineage: 2.2";
                          "SNP 100 suggests sub-lineage: 2.2.1";
                          "Lineage: 2 East-Asian"] |}.
Proof.
  apply (sublineages_only [mk "100" "2.2.1" "A"; mk "200" "2.2" "T"]
           [obs "200" "T"; obs "100" "A"] "S1" "2.2.1" ["2.2"; "2.2.1"]
           (add_text initial_reports ["SNP 200 suggests sub-lineage: 2.2";
                                      "SNP 100 suggests sub-lineage: 2.2.1"])).
  - vm_compute. reflexivity.
  - done.
  - repeat constructor.
Defined.

(** X8: when exactly one lineage label and at least one sublineage label
    are collected and an animal position is observed, the verdict is
    "mixed lineage(s)", whatever the labels are; no display name is looked
    up. *)
Theorem single_lineage_with_sublineage_and_animal
    markers snp_data sample_id sublin l prevsub st' :
  _get_lineage_detail (position_map_of markers) snp_data initial_reports
    = Ok ((sublin, [l], prevsub), st') →
  prevsub ≠ [] →
  animals (tags_of snp_data) = true →
  parse_lineage markers snp_data sample_id
  = Ok {| tsv_report := [["Sample ID"; "Lineage"; "Lineage Name"];
                         mixed_row sample_id];
          text_report := animal_note_lines snp_data ++ text_report st'
                         ++ ["no precise lineage inferred"] |}.
Proof.
  intros (-> & Hl & -> & ->)%get_lineage_detail_inv Hne Han.
  set (pm := position_map_of markers) in *.
  rewrite parse_lineage_resolve. fold pm. rewrite <- Hl, resolve_one.
  rewrite deepest_true by (done || apply subs_true).
  destruct (str_split_top (deepest (subs pm snp_data))) as [pieces ->].
  rewrite report_tribe_cases, Han, orb_true_r.
  by rewrite final_reports_eq.
Qed.

Lemma single_lineage_with_sublineage_and_animal_witness :
  parse_lineage [mk "100" "3" "A"; mk "200" "3.1" "T"]
                [obs "100" "A"; obs "200" "T"; obs "2726378" "G"] "S1"
  = Ok {| tsv_report := [["Sample ID"; "Lineage"; "Lineage Name"];
                         ["S1"; "mixed lineage(s)"; "mixed lineage(s)"]];
          text_report := ["SNP 2726378 suggests M. orygis";
                          "SNP 100 suggests lineage: 3";
                          "SNP 200 suggests sub-lineage: 3.1";
                          "no precise lineage inferred"] |}.
Proof.
  apply (single_lineage_with_sublineage_and_animal
           [mk "100" "3" "A"; mk "200" "3.1" "T"]
           [obs "100" "A"; obs "200" "T"; obs "2726378" "G"] "S1"
           "3.1" "3" ["3.1"]
           (add_text initial_reports ["SNP 100 suggests lineage: 3";
                                      "SNP 200 suggests sub-lineage: 3.1"])).
  - vm_compute. reflexivity.
  - done.
  - vm_compute. reflexivity.
Defined.

(** ** What a run depends on *)

Lemma matched_agree pm1 pm2 row :
  pm1 !! POS row = pm2 !! POS row → matched pm1 row = matched pm2 row.
Proof. unfold matched. by intros ->. Qed.

Lemma labels_agree pm1 pm2 rows :
  (∀ row, row ∈ rows → pm1 !! POS row = pm2 !! POS row) →
  labels pm1 rows = labels pm2 rows
  ∧ detail_lines pm1 rows = detail_lines pm2 rows.
Proof.
  induction rows as [|row rows IH]; intros Hagree; [done|].
  rewrite !labels_cons, !detail_lines_cons.
  rewrite (matched_agree pm1 pm2 row) by (apply Hagree; by left).
  destruct IH as [-> ->]; [intros r Hr; apply Hagree; by right|done].
Qed.

(** X9: a run reads the marker table only at the observed positions: two
    marker tables whose mappings answer every position of the variant table
    alike give the same reports or the same exception. *)
Theorem markers_matter_at_observed_positions
    markers1 markers2 snp_data sample_id :
  (∀ row, row ∈ snp_data →
     position_map_of markers1 !! POS row = position_map_of markers2 !! POS row) →
  parse_lineage markers1 snp_data sample_id
  = parse_lineage markers2 snp_data sample_id.
Proof.
  intros Hagree. rewrite !parse_lineage_resolve. unfold lins, subs.
  by destruct (labels_agree _ _ _ Hagree) as [-> ->].
Qed.

Lemma markers_matter_at_observed_positions_witness :
  parse_lineage [mk "100" "3" "G"; mk "100" "3" "A"; mk "999" "2" "T"]
                [obs "100" "A"] "S1"
  = parse_lineage [mk "100" "3" "A"] [obs "100" "A"] "S1".
Proof.
  apply markers_matter_at_observed_positions.
  intros row Hrow. apply list_elem_of_singleton in Hrow as ->.
  vm_compute. reflexivity.
Defined.

Lemma labels_relevant pm rows :
  labels pm (filter (relevant pm) rows) = labels pm rows
  ∧ detail_lines pm (filter (relevant pm) rows) = detail_lines pm rows.
Proof.
  induction rows as [|row rows [IHl IHd]]; [done|].
  destruct (matched pm row) as [l|] eqn:Hm.
  - rewrite filter_cons_True by (left; by rewrite Hm).
    rewrite !labels_cons, !detail_lines_cons, Hm. by rewrite IHl, IHd.
  - rewrite labels_cons, detail_lines_cons, Hm.
    destruct (decide (relevant pm row)).
    + rewrite filter_cons_True by done.
      by rewrite labels_cons, detail_lines_cons, Hm.
    + by rewrite filter_cons_False by done.
Qed.

Lemma tags_of_relevant pm rows :
  tags_of (filter (relevant pm) rows) = tags_of rows.
Proof.
  apply set_eq. intros t. rewrite !elem_of_tags_of.
  split; intros (pos & Hin & Ht); exists pos; (split; [|done]).
  - apply list_elem_of_fmap in Hin as (row & -> & Hrow).
    apply list_elem_of_filter in Hrow as [_ Hrow].
    apply list_elem_of_fmap. eauto.
  - apply list_elem_of_fmap in Hin as (row & -> & Hrow).
    apply list_elem_of_fmap. exists row. split; [done|].
    apply list_elem_of_filter. split; [|done]. right. by rewrite Ht.
Qed.

Lemma animal_note_lines_tags rows1 rows2 :
  tags_of rows1 = tags_of rows2 →
  animal_note_lines rows1 = animal_note_lines rows2.
Proof.
  intros Htags. unfold animal_note_lines, animal_note.
  rewrite <- !BCG_observed, <- !BOV_observed, <- !ORYX_observed,
    <- !CAP_observed.
  by rewrite Htags.
Qed.

(** X10: a run reads the variant table only through the rows that bring
    evidence and the rows at one of the six special positions: removing
    every other row changes neither the reports nor the exception. *)
Theorem only_relevant_rows_matter markers snp_data sample_id :
  parse_lineage markers (filter (relevant (position_map_of markers)) snp_data)
    sample_id
  = parse_lineage markers snp_data sample_id.
Proof.
  rewrite !parse_lineage_resolve. unfold lins, subs.
  destruct (labels_relevant (position_map_of markers) snp_data) as [-> ->].
  rewrite tags_of_relevant.
  by rewrite (animal_note_lines_tags _ snp_data)
    by apply tags_of_relevant.
Qed.

(** * create_lineage_report on small logs *)

Example report_from_lineage_line :
  CreateLineageReport.create_lineage_report "out/S1_Lineage.txt"
    ["SNP 100 suggests lineage: 5" +:+ CreateLineageReport.newline;
     "Lineage: 5 West-Africa 1" +:+ CreateLineageReport.newline]
  = CreateLineageReport.Done
      ("Sample ID" +:+ CreateLineageReport.tab +:+ "Lineage"
       +:+ CreateLineageReport.tab +:+ "Lineage Name"
       +:+ CreateLineageReport.newline
       +:+ "S1" +:+ CreateLineageReport.tab +:+ "5"
       +:+ CreateLineageReport.tab +:+ "West-Africa 1"
       +:+ CreateLineageReport.newline).
Proof. vm_compute. reflexivity. Qed.

Example report_from_colon_form :
  CreateLineageReport.scan CreateLineageReport.start
    ["Lineage: 4 : Euro-American "; "Lineage: Bovis-BCG"]
  = CreateLineageReport.Done
      {| CreateLineageReport.lineage := "4";
         CreateLineageReport.lineage_name := "Euro-American";
         CreateLineageReport.lineage_parts := Some ["Bovis-BCG"] |}.
Proof. vm_compute. reflexivity. Qed.

Example report_from_blank_lineage :
  CreateLineageReport.scan CreateLineageReport.start ["Lineage: : x"]
  = CreateLineageReport.Raised CreateLineageReport.IndexError.
Proof. vm_compute. reflexivity. Qed.

(** ** Characters of a string *)

Lemma append_cons c a b : String c a +:+ b = String c (a +:+ b).
Proof. reflexivity. Qed.

Lemma append_nil b : "" +:+ b = b.
Proof. reflexivity. Qed.

Lemma chars_app a b :
  String.list_ascii_of_string (a +:+ b)
  = String.list_ascii_of_string a ++ String.list_ascii_of_string b.
Proof.
  induction a as [|c a IH]; [done|].
  rewrite append_cons. simpl. by rewrite IH.
Qed.

Lemma lacks_app c a b : lacks c (a +:+ b) ↔ lacks c a ∧ lacks c b.
Proof. unfold lacks. rewrite chars_app, not_elem_of_app. done. Qed.

Lemma prefix_chars p s c :
  String.prefix p s = true →
  c ∈ String.list_ascii_of_string p → c ∈ String.list_ascii_of_string s.
Proof.
  revert s. induction p as [|a p IH]; intros s Hpre Hin.
  - by apply elem_of_nil in Hin.
  - destruct s as [|b s]; simpl in Hpre; [done|].
    destruct (Ascii.ascii_dec a b) as [->|]; [|done].
    simpl in Hin |- *.
    apply elem_of_cons in Hin as [->|Hin]; [by left|].
    right. by apply IH.
Qed.

Lemma contains_chars p s c :
  contains p s = true →
  c ∈ String.list_ascii_of_string p → c ∈ String.list_ascii_of_string s.
Proof.
  induction s as [|b s IH]; intros Hc Hin; cbn [contains] in Hc.
  - rewrite orb_false_r in Hc. by apply (prefix_chars p "").
  - apply orb_true_iff in Hc as [Hpre|Hc].
    + by apply (prefix_chars p (String b s)).
    + simpl. right. by apply IH.
Qed.


Lemma lstrip_chars s c :
  c ∈ String.list_ascii_of_string (lstrip s) →
  c ∈ String.list_ascii_of_string s.
Proof.
  induction s as [|b s IH]; simpl; [done|].
  destruct (is_space b); [|done]. intros Hin. right. by apply IH.
Qed.

Lemma rstrip_chars s c :
  c ∈ String.list_ascii_of_string (rstrip s) →
  c ∈ String.list_ascii_of_string s.
Proof.
  induction s as [|b s IH]; simpl; [done|].
  destruct (rstrip s) as [|d r] eqn:Hr.
  - destruct (is_space b); simpl; [by intros ?%elem_of_nil|].
    intros [->|?%elem_of_nil]%elem_of_cons; [by left|done].
  - simpl. intros [->|Hin]%elem_of_cons; [by left|]. right. by apply IH.
Qed.

Lemma strip_lacks c s : lacks c s → lacks c (strip s).
Proof.
  unfold lacks, strip. intros Hs Hin.
  by apply Hs, lstrip_chars, rstrip_chars.
Qed.

(** ** Splitting at a character *)

Lemma str_split_cons_sep c s :
  str_split c (String c s) = "" :: str_split c s.
Proof. simpl. by rewrite Ascii.eqb_refl. Qed.

Lemma str_split_cons_other c d s :
  d ≠ c →
  ∃ piece pieces,
    str_split c s = piece :: pieces
    ∧ str_split c (String d s) = String d piece :: pieces.
Proof.
  intros Hne. destruct (str_split_cons c s) as (piece & pieces & Hs).
  exists piece, pieces. split; [done|]. simpl.
  rewrite (proj2 (Ascii.eqb_neq d c)) by done. by rewrite Hs.
Qed.

Lemma str_split_has_sep c s :
  c ∈ String.list_ascii_of_string s → 2 ≤ length (str_split c s).
Proof.
  induction s as [|d s IH]; simpl String.list_ascii_of_string.
  - by intros ?%elem_of_nil.
  - intros Hin. destruct (decide (d = c)) as [->|Hne].
    + rewrite str_split_cons_sep.
      destruct (str_split_cons c s) as (? & ? & ->). simpl. lia.
    + destruct (str_split_cons_other c d s Hne) as (? & ? & Hs & ->).
      apply elem_of_cons in Hin as [->|Hin]; [done|].
      specialize (IH Hin). rewrite Hs in IH. exact IH.
Qed.

Lemma str_split_lacks c s : lacks c s → str_split c s = [s].
Proof.
  unfold lacks. induction s as [|d s IH]; [done|].
  simpl String.list_ascii_of_string. intros [Hne Hs]%not_elem_of_cons.
  destruct (str_split_cons_other c d s) as (? & ? & Hsplit & ->); [done|].
  rewrite (IH Hs) in Hsplit. by injection Hsplit as <- <-.
Qed.

Lemma str_split_app c x y :
  ∃ piece pieces,
    str_split c y = piece :: pieces
    ∧ str_split c (x +:+ String c y)
      = str_split c x ++ piece :: pieces.
Proof.
  destruct (str_split_cons c y) as (piece & pieces & Hy).
  exists piece, pieces. split; [done|]. rewrite <- Hy. clear Hy.
  induction x as [|d x IH].
  - rewrite append_nil, str_split_cons_sep. done.
  - rewrite append_cons. destruct (decide (d = c)) as [->|Hne].
    + rewrite !str_split_cons_sep, IH. done.
    + destruct (str_split_cons_other c d (x +:+ String c y) Hne)
        as (p1 & ps1 & Hs1 & ->).
      destruct (str_split_cons_other c d x Hne) as (p2 & ps2 & Hs2 & ->).
      rewrite IH, Hs2 in Hs1. simpl in Hs1. injection Hs1 as <- <-. done.
Qed.

(** ** When create_lineage_report fails *)

Lemma lineage_colon s :
  contains "Lineage:" s = true → 2 ≤ length (str_split ":" s).
Proof.
  intros Hc. apply str_split_has_sep, (contains_chars "Lineage:"); [done|].
  apply list_elem_of_In. simpl. tauto.
Qed.

Lemma scan_line_cases st line :
  (blank_lineage line = true
   ∧ CreateLineageReport.scan_line st line
     = CreateLineageReport.Raised CreateLineageReport.IndexError)
  ∨ (blank_lineage line = false
     ∧ ∃ st', CreateLineageReport.scan_line st line
              = CreateLineageReport.Done st').
Proof.
  unfold blank_lineage, CreateLineageReport.scan_line. cbv zeta.
  destruct (contains "no precise lineage inferred" (strip line));
    [right; eauto|].
  destruct (contains "Lineage:" (strip line)) eqn:Hlin; [|right; eauto].
  apply lineage_colon in Hlin. cbn [negb andb].
  destruct (3 <=? length (str_split ":" (strip line)))%nat eqn:Hthree.
  - destruct (split_ws _); [left|right]; eauto.
  - right. split; [done|]. apply Nat.leb_gt in Hthree.
    assert (length (str_split ":" (strip line)) = 2) as -> by lia.
    cbn [Nat.eqb].
    match goal with |- context [if ?b then _ else _] => destruct b end; eauto.
Qed.

Lemma scan_cases st lines :
  ((∃ line, line ∈ lines ∧ blank_lineage line = true)
   ∧ CreateLineageReport.scan st lines
     = CreateLineageReport.Raised CreateLineageReport.IndexError)
  ∨ (Forall (λ line, blank_lineage line = false) lines
     ∧ ∃ st', CreateLineageReport.scan st lines = CreateLineageReport.Done st').
Proof.
  revert st. induction lines as [|line lines IH]; intros st.
  - right. split; [done|]. by exists st.
  - simpl. destruct (scan_line_cases st line) as [[Hb ->]|[Hb [st' ->]]].
    + left. split; [|done]. exists line. split; [by left|done].
    + destruct (IH st') as [[(l & Hin & Hl) ->]|[Hall Hdone]].
      * left. split; [|done]. exists l. split; [by right|done].
      * right. split; [by constructor|done].
Qed.

(** X11: [create_lineage_report] fails exactly when some line of the log,
    once stripped, holds "Lineage:" and not "no precise lineage inferred",
    has two colons or more, and has only whitespace between the first two.
    The failure is [IndexError]; the branch that reads [lineage_parts]
    before any assignment is never reached, because a line that holds
    "Lineage:" splits at ":" into two parts at least. *)
Theorem create_lineage_report_fails_on_blank_lineage inputFile lines :
  (∀ e, CreateLineageReport.create_lineage_report inputFile lines
        = CreateLineageReport.Raised e →
        e = CreateLineageReport.IndexError)
  ∧ ((∃ e, CreateLineageReport.create_lineage_report inputFile lines
           = CreateLineageReport.Raised e)
     ↔ ∃ line, line ∈ lines ∧ blank_lineage line = true).
Proof.
  unfold CreateLineageReport.create_lineage_report.
  destruct (scan_cases CreateLineageReport.start lines)
    as [[Hbad ->]|[Hall [st' ->]]].
  - split; [by intros e [= <-]|]. split; [done|eauto].
  - split; [done|]. split; [by intros [e ?]|].
    intros (line & Hin & Hbad). rewrite Forall_forall in Hall.
    rewrite (Hall line Hin) in Hbad. done.
Qed.

(** ** The sample identifier taken from the file name *)

Lemma basename_dir dir name :
  lacks "/" name → basename (dir +:+ String "/" name) = name.
Proof.
  intros Hname. unfold basename.
  destruct (str_split_app "/" dir name) as (piece & pieces & Hsplit & ->).
  rewrite (str_split_lacks _ _ Hname) in Hsplit. injection Hsplit as <- <-.
  by rewrite last_snoc.
Qed.

Lemma basename_plain name : lacks "/" name → basename name = name.
Proof. intros Hname. unfold basename. by rewrite str_split_lacks. Qed.

Lemma before_underscore a rest :
  lacks "_" a → hd "" (str_split "_" (a +:+ String "_" rest)) = a.
Proof.
  intros Ha.
  destruct (str_split_app "_" a rest) as (piece & pieces & _ & ->).
  by rewrite (str_split_lacks _ _ Ha).
Qed.

(** X12: the sample identifier that [create_lineage_report] writes is the
    part of the file's base name before its first underscore, with or
    without directories in front.  For a log named
    [<sample>_Lineage.txt] it is the sample identifier only if that has no
    underscore; otherwise it is cut at the first one. *)
Theorem sample_is_cut_at_first_underscore dir a rest :
  lacks "/" a → lacks "_" a → lacks "/" rest →
  CreateLineageReport.sample (dir +:+ "/" +:+ a +:+ "_" +:+ rest) = a
  ∧ CreateLineageReport.sample (a +:+ "_" +:+ rest) = a.
Proof.
  intros Hslash Hunder Hrest. unfold CreateLineageReport.sample.
  assert (lacks "/" (a +:+ String "_" rest)) as Hname.
  { apply lacks_app. split; [done|]. unfold lacks in *. simpl.
    apply not_elem_of_cons. split; [done|exact Hrest]. }
  split.
  - change ("/" +:+ a +:+ "_" +:+ rest) with (String "/" (a +:+ String "_" rest)).
    rewrite basename_dir by done. by apply before_underscore.
  - change ("_" +:+ rest) with (String "_" rest).
    rewrite basename_plain by done. by apply before_underscore.
Qed.

Lemma sample_is_cut_at_first_underscore_witness :
  CreateLineageReport.sample ("out/run1" +:+ "/" +:+ "TB" +:+ "_"
                              +:+ "042_Lineage.txt") = "TB"
  ∧ CreateLineageReport.sample ("TB" +:+ "_" +:+ "042_Lineage.txt") = "TB".
Proof.
  apply (sample_is_cut_at_first_underscore "out/run1" "TB" "042_Lineage.txt");
    apply (bool_decide_unpack _); vm_compute; exact I.
Defined.

(** ** create_lineage_report on the log of parse_lineage *)

Lemma scan_line_quiet st line :
  contains "no precise lineage inferred" (strip line) = false →
  contains "Lineage:" (strip line) = false →
  CreateLineageReport.scan_line st line = CreateLineageReport.Done st.
Proof.
  intros Hnp Hlin. unfold CreateLineageReport.scan_line. cbv zeta.
  by rewrite Hnp, Hlin.
Qed.




Lemma lacks_closed c s :
  bool_decide (c ∉ String.list_ascii_of_string s) = true → lacks c s.
Proof. apply bool_decide_eq_true. Qed.







Lemma tribe_map_entry code name :
  tribe_map !! code = Some name →
  (code, name) ∈ [ ("1", "Indo-Oceanic"); ("2", "East-Asian");
                   ("3", "East-African-Indian"); ("4", "Euro-American");
                   ("5", "West-Africa 1"); ("6", "West-Africa 2");
                   ("7", "Ethiopian") ].
Proof. apply elem_of_list_to_map_2. Qed.


Lemma parse_lineage_ok_shape markers rows sid st :
  parse_lineage markers rows sid = Ok st →
  ∃ v, verdict_valid v
       ∧ st = {| tsv_report := [["Sample ID"; "Lineage"; "Lineage Name"];
                                verdict_row sid v];
                 text_report :=
                   animal_note_lines rows
                   ++ detail_lines (position_map_of markers) rows
                   ++ verdict_lines v |}.
Proof.
  rewrite parse_lineage_resolve.
  destruct (resolve_outcome sid (tags_of rows)
              (lins (position_map_of markers) rows)
              (subs (position_map_of markers) rows)
              (add_text initial_reports
                 (animal_note_lines rows
                  ++ detail_lines (position_map_of markers) rows)))
    as [(v & Hv & ->)|[[-> _]|[-> _]]]; [|done..].
  intros [= <-]. exists v. split; [done|]. apply final_reports_eq.
Qed.



Example no_concordance_is_lost_in_the_rebuilt_report :
  CreateLineageReport.create_lineage_report "S1_Lineage.txt"
    ["SNP 100 suggests lineage: 2" +:+ CreateLineageReport.newline;
     "SNP 200 suggests lineage: 4" +:+ CreateLineageReport.newline;
     "no concordance between predicted lineage and sublineage(s)"
       +:+ CreateLineageReport.newline]
  = CreateLineageReport.Done
      ("Sample ID" +:+ CreateLineageReport.tab +:+ "Lineage"
       +:+ CreateLineageReport.tab +:+ "Lineage Name"
       +:+ CreateLineageReport.newline
       +:+ "S1" +:+ CreateLineageReport.tab +:+ ""
       +:+ CreateLineageReport.tab +:+ "" +:+ CreateLineageReport.newline).
Proof. vm_compute. reflexivity. Qed.

(** * The lineage read back from a report line *)

Lemma lstrip_app s x :
  s ≠ "" → lstrip s = s → lstrip (s +:+ x) = s +:+ x.
Proof.
  destruct s as [|c s]; [done|]. intros _. rewrite append_cons. simpl.
  destruct (is_space c) eqn:Hc; [|done].
  intros Heq. exfalso.
  assert (String.length (lstrip s) ≤ String.length s) as Hlen.
  { clear. induction s as [|d s IH]; simpl; [lia|].
    destruct (is_space d); simpl; lia. }
  rewrite Heq in Hlen. simpl in Hlen. lia.
Qed.

Lemma rstrip_app a b :
  rstrip b ≠ "" → rstrip (a +:+ b) = a +:+ rstrip b.
Proof.
  intros Hb. induction a as [|c a IH]; [done|].
  rewrite !append_cons. simpl. rewrite IH.
  destruct (a +:+ rstrip b) eqn:Hab; [|done].
  destruct a; [by rewrite append_nil in Hab|by rewrite append_cons in Hab].
Qed.

Lemma rstrip_newline n :
  rstrip (n +:+ CreateLineageReport.newline) = rstrip n.
Proof.
  induction n as [|c n IH]; [done|].
  rewrite append_cons. simpl. by rewrite IH.
Qed.

Lemma append_tab_ne a x : a +:+ CreateLineageReport.tab +:+ x ≠ "".
Proof. by destruct a. Qed.

Lemma strip_report_line s l n :
  s ≠ "" → lstrip s = s → n ≠ "" → rstrip n = n →
  strip (report_line s l n)
  = s +:+ CreateLineageReport.tab +:+ l +:+ CreateLineageReport.tab +:+ n.
Proof.
  intros Hs Hls Hn Hrn. unfold strip, report_line.
  rewrite lstrip_app by done.
  assert (R0 : rstrip (n +:+ CreateLineageReport.newline) = n)
    by (by rewrite rstrip_newline).
  assert (R1 : rstrip (CreateLineageReport.tab +:+ n
                       +:+ CreateLineageReport.newline)
               = CreateLineageReport.tab +:+ n).
  { rewrite rstrip_app by (by rewrite R0). by rewrite R0. }
  assert (R2 : rstrip (l +:+ CreateLineageReport.tab +:+ n
                       +:+ CreateLineageReport.newline)
               = l +:+ CreateLineageReport.tab +:+ n).
  { rewrite rstrip_app by (rewrite R1; apply (append_tab_ne "")).
    by rewrite R1. }
  assert (R3 : rstrip (CreateLineageReport.tab +:+ l
                       +:+ CreateLineageReport.tab +:+ n
                       +:+ CreateLineageReport.newline)
               = CreateLineageReport.tab +:+ l
                 +:+ CreateLineageReport.tab +:+ n).
  { rewrite rstrip_app by (rewrite R2; apply append_tab_ne). by rewrite R2. }
  rewrite rstrip_app by (rewrite R3; apply (append_tab_ne "")).
  by rewrite R3.
Qed.

Lemma split_three s l n :
  lacks (Ascii.ascii_of_nat 9) s → lacks (Ascii.ascii_of_nat 9) l →
  lacks (Ascii.ascii_of_nat 9) n →
  str_split (Ascii.ascii_of_nat 9)
    (s +:+ CreateLineageReport.tab +:+ l +:+ CreateLineageReport.tab +:+ n)
  = [s; l; n].
Proof.
  intros Hs Hl Hn.
  change (CreateLineageReport.tab +:+ l +:+ CreateLineageReport.tab +:+ n)
    with (String (Ascii.ascii_of_nat 9) (l +:+ String (Ascii.ascii_of_nat 9) n)).
  destruct (str_split_app (Ascii.ascii_of_nat 9) s
              (l +:+ String (Ascii.ascii_of_nat 9) n))
    as (p & ps & Hy & ->).
  destruct (str_split_app (Ascii.ascii_of_nat 9) l n)
    as (p' & ps' & Hn' & Hl').
  rewrite Hl', (str_split_lacks _ l), <- Hn', (str_split_lacks _ n) in Hy
    by done.
  injection Hy as <- <-. by rewrite (str_split_lacks _ s).
Qed.

Lemma read_report_line s l n lines :
  s ≠ "" → lstrip s = s → lacks (Ascii.ascii_of_nat 9) s →
  lacks (Ascii.ascii_of_nat 9) l →
  n ≠ "" → rstrip n = n → lacks (Ascii.ascii_of_nat 9) n →
  ReportLineageMlstype.parse_lineage (report_line s l n :: lines) s
  = Some (if String.eqb n "mixed_lineage(s)" then "NoResult"
          else n +:+ " (L" +:+ l +:+ ")").
Proof.
  intros Hs Hls Hts Htl Hn Hrn Htn.
  cbn [ReportLineageMlstype.parse_lineage].
  rewrite strip_report_line, split_three by done.
  cbn [length Nat.eqb lookup list_lookup default andb]. unfold id.
  rewrite String.eqb_refl. by destruct (String.eqb n _).
Qed.

Lemma skip_report_line line lines s :
  (let parts := str_split (Ascii.ascii_of_nat 9) (strip line) in
   (length parts =? 3)%nat && String.eqb (default "" (parts !! 0)) s) = false →
  ReportLineageMlstype.parse_lineage (line :: lines) s
  = ReportLineageMlstype.parse_lineage lines s.
Proof.
  cbv zeta. intros Hskip. cbn [ReportLineageMlstype.parse_lineage].
  by rewrite Hskip.
Qed.

(** X14: [parse_lineage] of report_lineage_mlstype answers with the first
    line of three tab-separated fields whose first field is the sample
    identifier.  For such a line with lineage [l] and lineage name [n] the
    answer is "n (Ll)", and "NoResult" only if [n] is "mixed_lineage(s)"
    with an underscore.  The fields hold no tab, the sample identifier
    starts and the name ends with a character that is no whitespace. *)
Theorem lineage_read_from_first_matching_line before after s l n :
  s ≠ "" → lstrip s = s → lacks (Ascii.ascii_of_nat 9) s →
  lacks (Ascii.ascii_of_nat 9) l →
  n ≠ "" → rstrip n = n → lacks (Ascii.ascii_of_nat 9) n →
  Forall (λ line,
            let parts := str_split (Ascii.ascii_of_nat 9) (strip line) in
            (length parts =? 3)%nat
            && String.eqb (default "" (parts !! 0)) s = false) before →
  ReportLineageMlstype.parse_lineage (before ++ report_line s l n :: after) s
  = Some (if String.eqb n "mixed_lineage(s)" then "NoResult"
          else n +:+ " (L" +:+ l +:+ ")").
Proof.
  intros Hs Hls Hts Htl Hn Hrn Htn Hbefore.
  induction Hbefore as [|line before Hline _ IH].
  - by apply read_report_line.
  - rewrite <- app_comm_cons, skip_report_line by exact Hline. exact IH.
Qed.

Lemma lineage_read_from_first_matching_line_witness :
  ReportLineageMlstype.parse_lineage
    (["Sample ID" +:+ CreateLineageReport.tab +:+ "Lineage"
      +:+ CreateLineageReport.tab +:+ "Lineage Name"
      +:+ CreateLineageReport.newline;
      report_line "S2" "2" "East-Asian"]
     ++ report_line "S1" "mixed lineage(s)" "mixed lineage(s)"
     :: [report_line "S1" "4" "Euro-American"]) "S1"
  = Some "mixed lineage(s) (Lmixed lineage(s))".
Proof.
  apply (lineage_read_from_first_matching_line _ _ "S1"
           "mixed lineage(s)" "mixed lineage(s)");
    try done; try (apply lacks_closed; vm_compute; reflexivity).
  repeat constructor.
Defined.

Lemma str_append_assoc a b c : (a +:+ b) +:+ c = a +:+ b +:+ c.
Proof.
  induction a as [|x a IH]; [done|]. rewrite !append_cons. by rewrite IH.
Qed.

Lemma verdict_fields sid v :
  verdict_valid v →
  ∃ code name,
    verdict_row sid v = [sid; code; name]
    ∧ lacks (Ascii.ascii_of_nat 9) code
    ∧ name ≠ "" ∧ rstrip name = name
    ∧ lacks (Ascii.ascii_of_nat 9) name
    ∧ String.eqb name "mixed_lineage(s)" = false
    ∧ csv_field code = Some code ∧ csv_field name = Some name
    ∧ lacks line_feed code ∧ lacks line_feed name.
Proof.
  destruct v as [code name| | |hrv37|short_species species|]; simpl.
  - intros Hentry%tribe_map_entry. exists code, name. split; [done|].
    repeat (apply elem_of_cons in Hentry as [[= -> ->]|Hentry];
            [repeat split; try done;
             apply lacks_closed; vm_compute; reflexivity|]).
    by apply elem_of_nil in Hentry.
  - intros _. eexists _, _. split; [reflexivity|].
    repeat split; try done; apply lacks_closed; vm_compute; reflexivity.
  - intros _. eexists _, _. split; [reflexivity|].
    repeat split; try done; apply lacks_closed; vm_compute; reflexivity.
  - intros _. eexists _, _. split; [reflexivity|].
    repeat split; try done; apply lacks_closed; vm_compute; reflexivity.
  - intros [tag Hentry]. exists short_species, species. split; [done|].
    unfold animal_map in Hentry.
    repeat (apply elem_of_cons in Hentry as [[= -> -> ->]|Hentry];
            [repeat split; try done;
             apply lacks_closed; vm_compute; reflexivity|]).
    by apply elem_of_nil in Hentry.
  - intros _. eexists _, _. split; [reflexivity|].
    repeat split; try done; apply lacks_closed; vm_compute; reflexivity.
Qed.

(** ** The report file *)

Lemma existsb_lacks (f : Ascii.ascii → bool) s :
  (∀ c, f c = true → lacks c s) →
  existsb f (String.list_ascii_of_string s) = false.
Proof.
  intros Hf. apply not_true_is_false.
  intros (c & Hin%list_elem_of_In & Hc)%existsb_exists.
  by apply (Hf c Hc).
Qed.

Lemma csv_field_as_is field :
  lacks delimiter field → lacks quotechar field → lacks line_feed field →
  lacks carriage_return field → lacks nul field →
  csv_field field = Some field.
Proof.
  intros Htab Hquote Hlf Hcr Hnul. unfold csv_field. cbv zeta.
  rewrite !existsb_lacks; [done| |].
  - intros c. unfold needs_quoting.
    intros [[->%Ascii.eqb_eq| ->%Ascii.eqb_eq]%orb_true_iff
           | ->%Ascii.eqb_eq]%orb_true_iff; done.
  - intros c [->%Ascii.eqb_eq| ->%Ascii.eqb_eq]%orb_true_iff; done.
Qed.

Lemma file_lines_line line text :
  lacks line_feed line →
  file_lines ((line +:+ CreateLineageReport.newline) +:+ text)
  = (line +:+ CreateLineageReport.newline) :: file_lines text.
Proof.
  induction line as [|c line IH]; intros Hlf; [reflexivity|].
  rewrite !append_cons. cbn [file_lines].
  assert (Ascii.eqb c line_feed = false) as ->.
  { apply Ascii.eqb_neq. intros ->. apply Hlf. simpl. left. }
  rewrite IH; [done|].
  intros Hin. apply Hlf. simpl. by right.
Qed.

Example report_file_of_plain_sample :
  writerows [["Sample ID"; "Lineage"; "Lineage Name"];
             ["S1"; "4"; "Euro-American"]]
  = Some ("Sample ID" +:+ CreateLineageReport.tab +:+ "Lineage"
          +:+ CreateLineageReport.tab +:+ "Lineage Name"
          +:+ CreateLineageReport.newline
          +:+ report_line "S1" "4" "Euro-American").
Proof. vm_compute. reflexivity. Qed.

(** A sample identifier with a quote character is written between quote
    characters, its own one doubled, and the reader, which compares the
    first field of the line as it stands, does not find the sample. *)
Example report_file_of_quoted_sample :
  let sample_id := "S" +:+ String quotechar "1" in
  writerow [sample_id; "4"; "Euro-American"]
  = Some (String quotechar "S" +:+ String quotechar (String quotechar "1")
          +:+ String quotechar CreateLineageReport.tab
          +:+ "4" +:+ CreateLineageReport.tab +:+ "Euro-American"
          +:+ CreateLineageReport.newline)
  ∧ (∃ lines,
       tsv_lines {| tsv_report := [["Sample ID"; "Lineage"; "Lineage Name"];
                                   [sample_id; "4"; "Euro-American"]];
                    text_report := [] |} = Some lines
       ∧ ReportLineageMlstype.parse_lineage lines sample_id = None).
Proof.
  split; [vm_compute; reflexivity|].
  eexists. split; vm_compute; reflexivity.
Qed.

(** A line feed in a field is kept inside the quoted field, so that the
    record is read as two lines. *)
Example report_file_of_line_feed :
  file_lines <$> writerow ["S" +:+ String line_feed "1"; "4"; "Euro-American"]
  = Some [String quotechar "S" +:+ CreateLineageReport.newline;
          "1" +:+ String quotechar CreateLineageReport.tab
          +:+ "4" +:+ CreateLineageReport.tab +:+ "Euro-American"
          +:+ CreateLineageReport.newline].
Proof. vm_compute. reflexivity. Qed.

Example writerow_of_one_empty_field :
  writerow [""] = Some (String quotechar (String quotechar
                                            CreateLineageReport.newline))
  ∧ writerow [""; ""]
    = Some (CreateLineageReport.tab +:+ CreateLineageReport.newline)
  ∧ writerow [] = Some CreateLineageReport.newline.
Proof. repeat split; vm_compute; reflexivity. Qed.

(** X15: the report that [parse_lineage] of lineage_parser writes with
    [csv.writer], read back line by line by [parse_lineage] of
    report_lineage_mlstype, always gives "<lineage name> (L<lineage>)" of
    its verdict row, and never "NoResult": the indeterminate verdict is
    written "mixed lineage(s)" with a space and read back as
    "mixed lineage(s) (Lmixed lineage(s))".  This holds for a sample
    identifier that the writer leaves as it is and the reader can find: an
    ASCII one without tab, double quote, line feed, carriage return and
    NUL, which starts with a character that is no whitespace and is not
    "Sample ID".  (A sample identifier with a tab, a double quote or a line
    feed is written between quotes and not found again.) *)
Theorem lineage_read_back_from_report markers snp_data sample_id st :
  parse_lineage markers snp_data sample_id = Ok st →
  is_ascii sample_id = true →
  sample_id ≠ "" → lstrip sample_id = sample_id →
  lacks delimiter sample_id → lacks quotechar sample_id →
  lacks line_feed sample_id → lacks carriage_return sample_id →
  lacks nul sample_id →
  sample_id ≠ "Sample ID" →
  ∃ code name lines,
    tsv_report st = [["Sample ID"; "Lineage"; "Lineage Name"];
                     [sample_id; code; name]]
    ∧ name ≠ "mixed_lineage(s)"
    ∧ tsv_lines st = Some lines
    ∧ ReportLineageMlstype.parse_lineage lines sample_id
      = Some (name +:+ " (L" +:+ code +:+ ")").
Proof.
  intros (v & Hv & ->)%parse_lineage_ok_shape
         _ Hne Hls Htab Hquote Hlf Hcr Hnul Hheader.
  destruct (verdict_fields sample_id v Hv)
    as (code & name & Hrow & Hcode & Hname & Hrname & Htname & Hmixed
        & Hwcode & Hwname & Hlcode & Hlname).
  exists code, name. simpl tsv_report. rewrite Hrow.
  eexists. split; [done|]. split; [by apply String.eqb_neq|].
  assert (Hheader_row :
            writerow ["Sample ID"; "Lineage"; "Lineage Name"]
            = Some (("Sample ID" +:+ CreateLineageReport.tab +:+ "Lineage"
                     +:+ CreateLineageReport.tab +:+ "Lineage Name")
                    +:+ CreateLineageReport.newline))
    by (vm_compute; reflexivity).
  assert (Hverdict_row :
            writerow [sample_id; code; name]
            = Some ((sample_id +:+ CreateLineageReport.tab +:+ code
                     +:+ CreateLineageReport.tab +:+ name)
                    +:+ CreateLineageReport.newline)).
  { unfold writerow. cbn [mapM mbind option_bind mret option_ret].
    rewrite (csv_field_as_is sample_id), Hwcode, Hwname by done.
    reflexivity. }
  split.
  - unfold tsv_lines, writerows. simpl tsv_report.
    cbn [mapM]. rewrite Hheader_row, Hverdict_row.
    cbn [mbind option_bind mret option_ret fmap option_fmap option_map
         foldr].
    rewrite file_lines_line by (apply lacks_closed; vm_compute; reflexivity).
    rewrite file_lines_line.
    + reflexivity.
    + repeat (apply lacks_app; split); try done;
        apply lacks_closed; vm_compute; reflexivity.
  - rewrite skip_report_line.
    + rewrite !str_append_assoc. fold (report_line sample_id code name).
      rewrite read_report_line by done. by rewrite Hmixed.
    + assert (str_split (Ascii.ascii_of_nat 9)
                (strip (("Sample ID" +:+ CreateLineageReport.tab
                         +:+ "Lineage" +:+ CreateLineageReport.tab
                         +:+ "Lineage Name")
                        +:+ CreateLineageReport.newline))
              = ["Sample ID"; "Lineage"; "Lineage Name"]) as ->
        by (vm_compute; reflexivity).
      cbn [length Nat.eqb lookup list_lookup default andb]. unfold id.
      apply String.eqb_neq. congruence.
Qed.

Lemma lineage_read_back_from_report_witness :
  ∃ code name lines,
    [["Sample ID"; "Lineage"; "Lineage Name"]; mixed_row "S1"]
    = [["Sample ID"; "Lineage"; "Lineage Name"]; ["S1"; code; name]]
    ∧ name ≠ "mixed_lineage(s)"
    ∧ tsv_lines
        {| tsv_report := [["Sample ID"; "Lineage"; "Lineage Name"];
                          mixed_row "S1"];
           text_report :=
             ["SNP 100 suggests lineage: 2";
              "SNP 200 suggests lineage: 4";
              "no concordance between predicted lineage and sublineage(s)"] |}
      = Some lines
    ∧ ReportLineageMlstype.parse_lineage lines "S1"
      = Some (name +:+ " (L" +:+ code +:+ ")").
Proof.
  apply (lineage_read_back_from_report [mk "100" "2" "A"; mk "200" "4" "T"]
           [obs "100" "A"; obs "200" "T"] "S1"
           {| tsv_report := [["Sample ID"; "Lineage"; "Lineage Name"];
                             mixed_row "S1"];
              text_report :=
                ["SNP 100 suggests lineage: 2";
                 "SNP 200 suggests lineage: 4";
                 "no concordance between predicted lineage and sublineage(s)"] |}).
  - vm_compute. reflexivity.
  - reflexivity.
  - discriminate.
  - reflexivity.
  - apply lacks_closed. vm_compute. reflexivity.
  - apply lacks_closed. vm_compute. reflexivity.
  - apply lacks_closed. vm_compute. reflexivity.
  - apply lacks_closed. vm_compute. reflexivity.
  - apply lacks_closed. vm_compute. reflexivity.
  - discriminate.
Defined.

(** ** Lines the two readers pass over *)

Lemma rstrip_blank_suffix x w : rstrip w = "" → rstrip (x +:+ w) = rstrip x.
Proof.
  intros Hw. induction x as [|c x IH]; [done|].
  rewrite append_cons. simpl. by rewrite IH.
Qed.

Lemma strip_blank_suffix s w :
  rstrip w = "" → lstrip w = "" → strip (s +:+ w) = strip s.
Proof.
  intros Hr Hl. unfold strip. induction s as [|c s IH].
  - rewrite append_nil. simpl. by rewrite Hl.
  - rewrite append_cons. simpl lstrip.
    destruct (is_space c); [exact IH|].
    rewrite <- append_cons. by apply rstrip_blank_suffix.
Qed.

(** X16: [parse_lineage] of report_lineage_mlstype passes over a report
    line whose lineage and lineage name are both empty, also when its first
    field is the sample identifier: stripping removes the two tabs at the
    end, and one field is left.  Such a line is what [create_lineage_report]
    writes when the log states no lineage. *)
Theorem empty_lineage_line_is_passed_over s lines :
  lacks (Ascii.ascii_of_nat 9) s →
  ReportLineageMlstype.parse_lineage (report_line s "" "" :: lines) s
  = ReportLineageMlstype.parse_lineage lines s.
Proof.
  intros Htab. apply skip_report_line. cbv zeta.
  change (report_line s "" "")
    with (s +:+ String (Ascii.ascii_of_nat 9)
                  (String (Ascii.ascii_of_nat 9)
                     (String (Ascii.ascii_of_nat 10) ""))).
  rewrite strip_blank_suffix by reflexivity.
  by rewrite str_split_lacks by by apply strip_lacks.
Qed.

Lemma empty_lineage_line_is_passed_over_witness :
  ReportLineageMlstype.parse_lineage
    (report_line "S1" "" "" :: [report_line "S2" "2" "East-Asian"]) "S1"
  = ReportLineageMlstype.parse_lineage [report_line "S2" "2" "East-Asian"] "S1".
Proof.
  apply (empty_lineage_line_is_passed_over "S1").
  apply lacks_closed. vm_compute. reflexivity.
Defined.

Lemma scan_line_not_decisive st line :
  decisive line = false →
  CreateLineageReport.scan_line st line = CreateLineageReport.Done st.
Proof.
  unfold decisive. intros [Hnp Hlin]%orb_false_elim.
  by apply scan_line_quiet.
Qed.

Lemma scan_decisive st lines :
  CreateLineageReport.scan st (filter (λ line, decisive line = true) lines)
  = CreateLineageReport.scan st lines.
Proof.
  revert st. induction lines as [|line lines IH]; intros st; [done|].
  destruct (decisive line) eqn:Hd.
  - rewrite filter_cons_True by done. simpl.
    destruct (CreateLineageReport.scan_line st line); [apply IH|done].
  - rewrite filter_cons_False by (by rewrite Hd). simpl.
    by rewrite scan_line_not_decisive.
Qed.

(** X17: [create_lineage_report] depends on the log only through the lines
    that, once stripped, hold "no precise lineage inferred" or "Lineage:":
    removing every other line changes neither what it writes nor whether it
    fails. *)
Theorem only_decisive_lines_matter inputFile lines :
  CreateLineageReport.create_lineage_report inputFile
    (filter (λ line, decisive line = true) lines)
  = CreateLineageReport.create_lineage_report inputFile lines.
Proof.
  unfold CreateLineageReport.create_lineage_report.
  by rewrite scan_decisive.
Qed.
